(** * lifekline: the analysis service ([services/geminiService.ts])

    A shallow embedding of [getStemPolarity] and [generateLifeAnalysis]
    together with the properties of the decade-cycle direction, of the
    configuration checks made before the request is sent, of the age bands
    written into the prompt and of the defaults applied to the reply.

    Conventions.
    - A JavaScript string is the list of its UTF-16 code units ([jsstring]).
      Literals are written as they appear in the (UTF-8) source file and are
      decoded by [js].
    - Numbers that arrive in JSON are IEEE-754 doubles ([spec_float] at
      precision 53).  The start age is an integer-valued Number; it is kept as
      a [Z], which is exact as long as the magnitude stays below [2^53]
      (see [safeInteger]).
    - [fetch], [JSON.parse] and the imported constant
      [BAZI_SYSTEM_INSTRUCTION] are not defined by this module: they are
      parameters of the embedding. *)

From Stdlib Require Import List ZArith NArith Bool Lia String Ascii.
From Stdlib Require Import Floats.SpecFloat DecimalPos.
Import ListNotations.

Local Open Scope N_scope.

(** ** Strings *)

Module JsString.

Definition jsstring := list N.

(** Decoding of a UTF-8 byte sequence into code points ... *)
Definition cont (b : N) : N := N.land b 0x3F.

Fixpoint codePoints (bs : list N) : list N :=
  match bs with
  | [] => []
  | b0 :: r0 =>
      if b0 <? 0x80 then b0 :: codePoints r0
      else if b0 <? 0xE0 then
        match r0 with
        | b1 :: r1 => (N.shiftl (N.land b0 0x1F) 6 + cont b1) :: codePoints r1
        | [] => [0xFFFD]
        end
      else if b0 <? 0xF0 then
        match r0 with
        | b1 :: b2 :: r2 =>
            (N.shiftl (N.land b0 0x0F) 12 + N.shiftl (cont b1) 6 + cont b2)
              :: codePoints r2
        | _ => [0xFFFD]
        end
      else
        match r0 with
        | b1 :: b2 :: b3 :: r3 =>
            (N.shiftl (N.land b0 0x07) 18 + N.shiftl (cont b1) 12
             + N.shiftl (cont b2) 6 + cont b3) :: codePoints r3
        | _ => [0xFFFD]
        end
  end.

(** ... and of a code point into one or two UTF-16 code units. *)
Definition codeUnits (cp : N) : jsstring :=
  if cp <? 0x10000 then [cp]
  else let v := cp - 0x10000 in
       [0xD800 + N.shiftr v 10; 0xDC00 + N.land v 0x3FF].

Definition js (s : string) : jsstring :=
  flat_map codeUnits
    (codePoints (map N_of_ascii (list_ascii_of_string s))).

Arguments js : simpl never.

Fixpoint eqb (a b : jsstring) : bool :=
  match a, b with
  | [], [] => true
  | x :: a', y :: b' => (x =? y) && eqb a' b'
  | _, _ => false
  end.

(** [!s] for a string: only the empty string is falsy. *)
Definition falsy (s : jsstring) : bool :=
  match s with [] => true | _ :: _ => false end.

(** [a || b] on strings. *)
Definition orElse (a b : jsstring) : jsstring := if falsy a then b else a.

(** White space and line terminators, as removed by [String.prototype.trim]
    and skipped by [parseInt]. *)
Definition isWhiteSpace (c : N) : bool :=
  existsb (N.eqb c)
    [0x09; 0x0A; 0x0B; 0x0C; 0x0D; 0x20; 0xA0; 0x1680;
     0x2028; 0x2029; 0x202F; 0x205F; 0x3000; 0xFEFF]
  || ((0x2000 <=? c) && (c <=? 0x200A)).

Fixpoint trimStart (s : jsstring) : jsstring :=
  match s with
  | [] => []
  | c :: s' => if isWhiteSpace c then trimStart s' else s
  end.

Definition trimEnd (s : jsstring) : jsstring := rev (trimStart (rev s)).

Definition trim (s : jsstring) : jsstring := trimEnd (trimStart s).

(** [s.charAt(i)]: the string made of the code unit at [i], or the empty
    string when [i] is out of range. *)
Definition charAt (s : jsstring) (i : nat) : jsstring := firstn 1 (skipn i s).

(** [arr.includes(x)] on an array of strings. *)
Definition includes (arr : list jsstring) (x : jsstring) : bool :=
  existsb (eqb x) arr.

(** [s.replace(/\/+$/, empty)]: the run of slashes that ends the string, if
    there is one, is removed. *)
Fixpoint dropSlashes (s : jsstring) : jsstring :=
  match s with
  | [] => []
  | c :: s' => if c =? 0x2F then dropSlashes s' else s
  end.

Definition stripTrailingSlashes (s : jsstring) : jsstring :=
  rev (dropSlashes (rev s)).

(** [/[^\x00-\x7F]/.test(s)]: the pattern has no [u] flag, so it is matched
    against code units. *)
Definition hasNonAscii (s : jsstring) : bool :=
  existsb (fun c => 0x7F <? c) s.

(** [s.includes(t)] on strings. *)
Fixpoint startsWith (t s : jsstring) : bool :=
  match t, s with
  | [], _ => true
  | x :: t', y :: s' => (x =? y) && startsWith t' s'
  | _ :: _, [] => false
  end.

Fixpoint contains (s t : jsstring) : bool :=
  startsWith t s
  || match s with [] => false | _ :: s' => contains s' t end.

End JsString.
Import JsString.

(** ** Stem polarity and direction of the decade cycle *)

Inductive Polarity := YANG | YIN.

(** [enum Gender] of [types.ts], as the form and the service use it. *)
Inductive Gender := MALE | FEMALE.

Inductive Direction := FORWARD | BACKWARD.

Definition Polarity_eqb (a b : Polarity) : bool :=
  match a, b with YANG, YANG | YIN, YIN => true | _, _ => false end.

Definition yangStems : list jsstring :=
  [js "甲"; js "丙"; js "戊"; js "庚"; js "壬"].

Definition yinStems : list jsstring :=
  [js "乙"; js "丁"; js "己"; js "辛"; js "癸"].

(** [pillar.trim().charAt(0)] *)
Definition firstChar (pillar : jsstring) : jsstring := charAt (trim pillar) 0.

Definition getStemPolarity (pillar : jsstring) : Polarity :=
  if falsy pillar then YANG
  else if includes yangStems (firstChar pillar) then YANG
  else if includes yinStems (firstChar pillar) then YIN
  else YANG.

(** The [isForward] flag of [generateLifeAnalysis]. *)
Definition isForward (yearPillar : jsstring) (gender : Gender) : bool :=
  let yearStemPolarity := getStemPolarity yearPillar in
  match gender with
  | MALE => Polarity_eqb yearStemPolarity YANG
  | FEMALE => Polarity_eqb yearStemPolarity YIN
  end.

Definition daYunDirectionStr (isForward : bool) : jsstring :=
  if isForward then js "顺行 (Forward)" else js "逆行 (Backward)".

(** The direction as a value: what [isForward] stands for. *)
Definition resolveDirection (yearPillar : jsstring) (gender : Gender)
  : Direction :=
  if isForward yearPillar gender then FORWARD else BACKWARD.

(** ** Numbers *)

(** IEEE-754 binary64, the Number type of the language. *)
Definition number := spec_float.

Definition Number_ofZ (z : Z) : number := binary_normalize 53 1024 z 0 false.

(** Integers that a Number holds exactly, as [Number.isSafeInteger]. *)
Definition safeInteger (z : Z) : bool := (Z.abs z <=? 2 ^ 53 - 1)%Z.

Fixpoint digitsOf (d : Decimal.uint) : jsstring :=
  match d with
  | Decimal.Nil => []
  | Decimal.D0 r => 0x30 :: digitsOf r
  | Decimal.D1 r => 0x31 :: digitsOf r
  | Decimal.D2 r => 0x32 :: digitsOf r
  | Decimal.D3 r => 0x33 :: digitsOf r
  | Decimal.D4 r => 0x34 :: digitsOf r
  | Decimal.D5 r => 0x35 :: digitsOf r
  | Decimal.D6 r => 0x36 :: digitsOf r
  | Decimal.D7 r => 0x37 :: digitsOf r
  | Decimal.D8 r => 0x38 :: digitsOf r
  | Decimal.D9 r => 0x39 :: digitsOf r
  end.

(** [String(n)] for an integer-valued Number [n] (a safe integer): its decimal
    digits, with a minus sign when negative. *)
Definition Number_toString (z : Z) : jsstring :=
  match Z.to_int z with
  | Decimal.Pos d => digitsOf d
  | Decimal.Neg d => 0x2D :: digitsOf d
  end.

(** The value of a code unit as a digit in radix [R] (10 or 16). *)
Definition digitValue (R c : N) : option N :=
  if (0x30 <=? c) && (c <=? 0x39) then Some (c - 0x30)
  else if (R =? 16) && (0x61 <=? c) && (c <=? 0x66) then Some (c - 0x61 + 10)
  else if (R =? 16) && (0x41 <=? c) && (c <=? 0x46) then Some (c - 0x41 + 10)
  else None.

(** The longest prefix of digits, read in radix [R]; [None] when the prefix
    is empty. *)
Fixpoint readDigits (R : N) (acc : option N) (s : jsstring) : option N :=
  match s with
  | [] => acc
  | c :: s' =>
      match digitValue R c with
      | Some d =>
          readDigits R (Some (match acc with Some a => a * R + d | None => d end)) s'
      | None => acc
      end
  end.

(** The steps of [parseInt(s)] with no radix argument: the sign, ... *)
Definition parseSign (s : jsstring) : Z * jsstring :=
  match s with
  | 0x2D :: r => ((-1)%Z, r)
  | 0x2B :: r => (1%Z, r)
  | _ => (1%Z, s)
  end.

(** ... the radix, 16 after the prefix [0x] or [0X] and 10 otherwise, ... *)
Definition parseRadix (s : jsstring) : N * jsstring :=
  match s with
  | 0x30 :: 0x78 :: r => (16, r)
  | 0x30 :: 0x58 :: r => (16, r)
  | _ => (10, s)
  end.

(** ... and the digits.  [None] is NaN, [Some z] the Number nearest to the
    integer [z] (that is [z] itself if it is a safe integer; the two zeros
    are not told apart). *)
Definition parseInt (s : jsstring) : option Z :=
  let '(sign, s1) := parseSign (trimStart s) in
  let '(R, s2) := parseRadix s1 in
  match readDigits R None s2 with
  | None => None
  | Some mathInt => Some (sign * Z.of_N mathInt)%Z
  end.

(** ** Values, errors and the world *)

#[warnings="-register-all"] Inductive JSValue :=
| JUndefined
| JNull
| JBool (b : bool)
| JNum (x : number)
| JStr (s : jsstring)
| JArr (items : list JSValue)
| JObj (props : list (jsstring * JSValue)).

(** What can be thrown here: [new Error(message)] and the errors of the
    runtime. *)
Inductive Exn :=
| Error (message : jsstring)
| TypeError
| SyntaxError.

Inductive Outcome (A : Type) :=
| Return (a : A)
| Throw (e : Exn).
Arguments Return {A} a.
Arguments Throw {A} e.

Definition truthy (v : JSValue) : bool :=
  match v with
  | JUndefined | JNull => false
  | JBool b => b
  | JNum (S754_zero _) | JNum S754_nan => false
  | JNum _ => true
  | JStr s => negb (falsy s)
  | JArr _ | JObj _ => true
  end.

(** [a || b]. *)
Definition or_ (a b : JSValue) : JSValue := if truthy a then a else b.

Definition isArray (v : JSValue) : bool :=
  match v with JArr _ => true | _ => false end.

Definition nullish (v : JSValue) : bool :=
  match v with JUndefined | JNull => true | _ => false end.

(** An object is the list of its own properties, each key once. *)
Fixpoint lookup (k : jsstring) (props : list (jsstring * JSValue)) : JSValue :=
  match props with
  | [] => JUndefined
  | (k', v) :: r => if eqb k k' then v else lookup k r
  end.

(** [v.k] on a value that is neither [null] nor [undefined], for a name [k]
    that no built-in prototype defines (every name read below is one). *)
Definition prop (v : JSValue) (k : jsstring) : JSValue :=
  match v with
  | JObj props => lookup k props
  | _ => JUndefined
  end.

(** [v.k]. *)
Definition getProp (v : JSValue) (k : jsstring) : Outcome JSValue :=
  if nullish v then Throw TypeError else Return (prop v k).

(** [v?.k]. *)
Definition optProp (v : JSValue) (k : jsstring) : JSValue :=
  if nullish v then JUndefined else prop v k.

(** [v?.[0]]. *)
Definition optIndex0 (v : JSValue) : JSValue :=
  match v with
  | JUndefined | JNull => JUndefined
  | JArr items => nth 0 items JUndefined
  | JStr (c :: _) => JStr [c]
  | JObj props => lookup (js "0") props
  | _ => JUndefined
  end.

(** ** Input and result records *)

(** [UserInput] of [types.ts], with the fields the form fills in.  The three
    API settings may be missing: the service tests them before use. *)
Record UserInput := {
  name : jsstring;
  gender : Gender;
  birthYear : jsstring;
  yearPillar : jsstring;
  monthPillar : jsstring;
  dayPillar : jsstring;
  hourPillar : jsstring;
  startAge : jsstring;
  firstDaYun : jsstring;
  modelName : option jsstring;
  apiBaseUrl : option jsstring;
  apiKey : option jsstring
}.

Record Analysis := {
  bazi : JSValue;
  summary : JSValue;
  summaryScore : JSValue;
  personality : JSValue;
  personalityScore : JSValue;
  industry : JSValue;
  industryScore : JSValue;
  fengShui : JSValue;
  fengShuiScore : JSValue;
  wealth : JSValue;
  wealthScore : JSValue;
  marriage : JSValue;
  marriageScore : JSValue;
  health : JSValue;
  healthScore : JSValue;
  family : JSValue;
  familyScore : JSValue;
  crypto : JSValue;
  cryptoScore : JSValue;
  cryptoYear : JSValue;
  cryptoStyle : JSValue
}.

Record LifeDestinyResult := {
  chartData : JSValue;
  analysis : Analysis
}.

(** ** The reply: check and defaults *)

Definition missingChartPoints : jsstring :=
  js "模型返回的数据格式不正确（缺失 chartPoints）。".

Definition five : JSValue := JNum (Number_ofZ 5).

(** The statements that follow [JSON.parse(content)]: the check of
    [chartPoints] and the construction of the result.  Once [data.chartPoints]
    has been read, [data] is known to have properties, and the later reads
    are [prop]. *)
Definition validate (data : JSValue) : Outcome LifeDestinyResult :=
  match getProp data (js "chartPoints") with
  | Throw e => Throw e
  | Return chartPoints =>
      if negb (truthy chartPoints) || negb (isArray chartPoints) then
        Throw (Error missingChartPoints)
      else
        Return {|
          chartData := prop data (js "chartPoints");
          analysis := {|
            bazi := or_ (prop data (js "bazi")) (JArr []);
            summary := or_ (prop data (js "summary")) (JStr (js "无摘要"));
            summaryScore := or_ (prop data (js "summaryScore")) five;
            personality :=
              or_ (prop data (js "personality")) (JStr (js "无性格分析"));
            personalityScore := or_ (prop data (js "personalityScore")) five;
            industry := or_ (prop data (js "industry")) (JStr (js "无"));
            industryScore := or_ (prop data (js "industryScore")) five;
            fengShui :=
              or_ (prop data (js "fengShui"))
                  (JStr (js "建议多亲近自然，保持心境平和。"));
            fengShuiScore := or_ (prop data (js "fengShuiScore")) five;
            wealth := or_ (prop data (js "wealth")) (JStr (js "无"));
            wealthScore := or_ (prop data (js "wealthScore")) five;
            marriage := or_ (prop data (js "marriage")) (JStr (js "无"));
            marriageScore := or_ (prop data (js "marriageScore")) five;
            health := or_ (prop data (js "health")) (JStr (js "无"));
            healthScore := or_ (prop data (js "healthScore")) five;
            family := or_ (prop data (js "family")) (JStr (js "无"));
            familyScore := or_ (prop data (js "familyScore")) five;
            crypto := or_ (prop data (js "crypto")) (JStr (js "暂无交易分析"));
            cryptoScore := or_ (prop data (js "cryptoScore")) five;
            cryptoYear := or_ (prop data (js "cryptoYear")) (JStr (js "待定"));
            cryptoStyle :=
              or_ (prop data (js "cryptoStyle")) (JStr (js "现货定投"))
          |}
        |}
  end.

(** ** The prompt *)

Definition NL : jsstring := [0x0A].
Definition dquote : jsstring := [0x22].

Fixpoint joinLines (ls : list jsstring) : jsstring :=
  match ls with
  | [] => []
  | [l] => l
  | l :: r => l ++ NL ++ joinLines r
  end.

Definition genderStr (input : UserInput) : jsstring :=
  match gender input with
  | MALE => js "男 (乾造)"
  | FEMALE => js "女 (坤造)"
  end.

(** [parseInt(input.startAge) || 1]: NaN and zero are falsy. *)
Definition startAgeInt (input : UserInput) : Z :=
  match parseInt (startAge input) with
  | Some z => if (z =? 0)%Z then 1%Z else z
  | None => 1%Z
  end.

Definition directionExample (isForward : bool) : jsstring :=
  if isForward
  then js "例如：第一步是【戊申】，第二步则是【己酉】（顺排）"
  else js "例如：第一步是【戊申】，第二步则是【丁未】（逆排）".

(** The template literal, line by line.  First the lines up to the heading
    of step 3, ... *)
Definition promptHead (input : UserInput) : list jsstring :=
  let yearStemPolarity := getStemPolarity (yearPillar input) in
  let forward := isForward (yearPillar input) (gender input) in
  [ js "";
    js "    请根据以下**已经排好的**八字四柱和**指定的大运信息**进行分析。";
    js "    ";
    js "    【基本信息】";
    js "    性别：" ++ genderStr input;
    js "    姓名：" ++ orElse (name input) (js "未提供");
    js "    出生年份：" ++ birthYear input ++ js "年 (阳历)";
    js "    ";
    js "    【八字四柱】";
    js "    年柱：" ++ yearPillar input ++ js " (天干属性："
      ++ (if Polarity_eqb yearStemPolarity YANG then js "阳" else js "阴")
      ++ js ")";
    js "    月柱：" ++ monthPillar input;
    js "    日柱：" ++ dayPillar input;
    js "    时柱：" ++ hourPillar input;
    js "    ";
    js "    【大运核心参数】";
    js "    1. 起运年龄：" ++ startAge input ++ js " 岁 (虚岁)。";
    js "    2. 第一步大运：" ++ firstDaYun input ++ js "。";
    js "    3. **排序方向**：" ++ daYunDirectionStr forward ++ js "。";
    js "    ";
    js "    【必须执行的算法 - 大运序列生成】";
    js "    请严格按照以下步骤生成数据：";
    js "    ";
    js "    1. **锁定第一步**：确认【" ++ firstDaYun input
      ++ js "】为第一步大运。";
    js "    2. **计算序列**：根据六十甲子顺序和方向（"
      ++ daYunDirectionStr forward ++ js "），推算出接下来的 9 步大运。";
    js "       " ++ directionExample forward;
    js "    3. **填充 JSON**：" ].

(** ... then the age bands of step 3, computed from [startAgeInt], ... *)
Definition bandLines (startAgeInt : Z) (firstDaYun : jsstring)
  : list jsstring :=
  [ js "       - Age 1 到 " ++ Number_toString (startAgeInt - 1)
      ++ js ": daYun = " ++ dquote ++ js "童限" ++ dquote;
    js "       - Age " ++ Number_toString startAgeInt ++ js " 到 "
      ++ Number_toString (startAgeInt + 9)
      ++ js ": daYun = [第1步大运: " ++ firstDaYun ++ js "]";
    js "       - Age " ++ Number_toString (startAgeInt + 10) ++ js " 到 "
      ++ Number_toString (startAgeInt + 19) ++ js ": daYun = [第2步大运]";
    js "       - Age " ++ Number_toString (startAgeInt + 20) ++ js " 到 "
      ++ Number_toString (startAgeInt + 29) ++ js ": daYun = [第3步大运]";
    js "       - ...以此类推直到 100 岁。" ].

(** ... and the rest. *)
Definition promptTail : list jsstring :=
  [ js "    ";
    js "    【特别警告】";
    js "    - **daYun 字段**：必须填大运干支（10年一变），**绝对不要**填流年干支。";
    js "    - **ganZhi 字段**：填入该年份的**流年干支**（每年一变，例如 2024=甲辰，2025=乙巳）。";
    js "    ";
    js "    任务：";
    js "    1. 确认格局与喜忌。";
    js "    2. 生成 **1-100 岁 (虚岁)** 的人生流年K线数据。";
    js "    3. 在 `reason` 字段中提供流年详批。";
    js "    4. 生成带评分的命理分析报告（包含性格分析、币圈交易分析、发展风水分析）。";
    js "    ";
    js "    请严格按照系统指令生成 JSON 数据。";
    js "  " ].

Definition userPrompt (input : UserInput) : jsstring :=
  joinLines
    (promptHead input
     ++ bandLines (startAgeInt input) (firstDaYun input)
     ++ promptTail).

(** ** The request and the call *)

Record Request := {
  url : jsstring;
  method : jsstring;
  headers : list (jsstring * jsstring);
  (** the object handed to [JSON.stringify] *)
  body : JSValue
}.

(** A reply of the endpoint: [response.ok], [response.status], and what
    [response.text()] and [response.json()] resolve to ([None]: the body is
    not JSON and [json()] rejects with a [SyntaxError]). *)
Record Response := {
  ok : bool;
  status : N;
  text : jsstring;
  json : option JSValue
}.

Inductive FetchResult :=
| Rejected (e : Exn)
| Responded (r : Response).

(** What a run leaves behind: the requests handed to [fetch], oldest first,
    and what was written with [console.error]. *)
Record World := {
  sent : list Request;
  console : list Exn
}.

Definition Async (A : Type) : Type := World -> Outcome A * World.

Definition ret {A} (a : A) : Async A := fun w => (Return a, w).

Definition throw {A} (e : Exn) : Async A := fun w => (Throw e, w).

Definition bind {A B} (m : Async A) (k : A -> Async B) : Async B :=
  fun w =>
    match m w with
    | (Return a, w') => k a w'
    | (Throw e, w') => (Throw e, w')
    end.

Definition tryCatch {A} (m : Async A) (handler : Exn -> Async A) : Async A :=
  fun w =>
    match m w with
    | (Return a, w') => (Return a, w')
    | (Throw e, w') => handler e w'
    end.

Definition lift {A} (o : Outcome A) : Async A := fun w => (o, w).

Definition console_error (e : Exn) : Async unit :=
  fun w => (Return tt, {| sent := sent w; console := console w ++ [e] |}).

Notation "x <- m ;; k" := (bind m (fun x => k))
  (at level 61, m at next level, right associativity).
Notation "m ;;; k" := (bind m (fun _ => k))
  (at level 61, right associativity).

Definition emptyWorld : World := {| sent := []; console := [] |}.

Definition defaultModel : jsstring := js "[O]gemini-3-pro-preview".
Definition missingApiKey : jsstring := js "请在表单中填写有效的 API Key".
Definition badApiKey : jsstring :=
  js "API Key 包含非法字符（如中文或全角符号），请检查输入是否正确。".
Definition missingBaseUrl : jsstring := js "请在表单中填写有效的 API Base URL".
Definition noContent : jsstring := js "模型未返回任何内容。".

Definition cleanApiKey (input : UserInput) : jsstring :=
  match apiKey input with
  | Some k => if falsy k then js "" else trim k
  | None => js ""
  end.

Definition cleanBaseUrl (input : UserInput) : jsstring :=
  match apiBaseUrl input with
  | Some u => if falsy u then js "" else stripTrailingSlashes (trim u)
  | None => js ""
  end.

Definition targetModel (input : UserInput) : jsstring :=
  match modelName input with
  | Some m =>
      if negb (falsy m) && negb (falsy (trim m)) then trim m else defaultModel
  | None => defaultModel
  end.

Section Service.

(** The endpoint, [JSON.parse] (applied to any value, [None] when it throws
    a [SyntaxError]) and the system instruction of [constants.ts]. *)
Variable fetch : Request -> FetchResult.
Variable JSON_parse : JSValue -> option JSValue.
Variable BAZI_SYSTEM_INSTRUCTION : jsstring.

Definition await_fetch (req : Request) : Async Response :=
  fun w =>
    let w' := {| sent := sent w ++ [req]; console := console w |} in
    match fetch req with
    | Rejected e => (Throw e, w')
    | Responded r => (Return r, w')
    end.

Definition chatRequest (input : UserInput) : Request :=
  {| url := cleanBaseUrl input ++ js "/chat/completions";
     method := js "POST";
     headers :=
       [ (js "Content-Type", js "application/json");
         (js "Authorization", js "Bearer " ++ cleanApiKey input) ];
     body :=
       JObj
         [ (js "model", JStr (targetModel input));
           (js "messages",
            JArr
              [ JObj [ (js "role", JStr (js "system"));
                       (js "content", JStr BAZI_SYSTEM_INSTRUCTION) ];
                JObj [ (js "role", JStr (js "user"));
                       (js "content", JStr (userPrompt input)) ] ]);
           (js "response_format",
            JObj [ (js "type", JStr (js "json_object")) ]);
           (js "temperature",
            JNum (SFdiv 53 1024 (Number_ofZ 7) (Number_ofZ 10))) ] |}.

(** The statements of the [try] block that follow the call of [fetch]. *)
Definition readResponse (response : Response) : Async LifeDestinyResult :=
  if negb (ok response) then
    throw (Error (js "API 请求失败: "
                  ++ Number_toString (Z.of_N (status response))
                  ++ js " - " ++ text response))
  else
    jsonResult <-
      lift (match json response with
            | Some v => Return v
            | None => Throw SyntaxError
            end) ;;
    choices <- lift (getProp jsonResult (js "choices")) ;;
    let content :=
      optProp (optProp (optIndex0 choices) (js "message")) (js "content") in
    if negb (truthy content) then throw (Error noContent)
    else
      data <-
        lift (match JSON_parse content with
              | Some v => Return v
              | None => Throw SyntaxError
              end) ;;
      lift (validate data).

Definition generateLifeAnalysis (input : UserInput)
  : Async LifeDestinyResult :=
  if falsy (cleanApiKey input) then throw (Error missingApiKey)
  else if hasNonAscii (cleanApiKey input) then throw (Error badApiKey)
  else if falsy (cleanBaseUrl input) then throw (Error missingBaseUrl)
  else
    tryCatch
      (response <- await_fetch (chatRequest input) ;;
       readResponse response)
      (fun error => console_error error ;;; throw error).

End Service.

(** ** Vocabulary of the statements *)

(** A string made of white space only. *)
Definition allWhiteSpace (s : jsstring) : Prop :=
  Forall (fun c => isWhiteSpace c = true) s.

(** A pillar that starts with the given stem. *)
Definition stemPillar (stems : list jsstring) (p : jsstring) : Prop :=
  exists stem rest, In stem stems /\ p = stem ++ rest.

(** A setting that is missing, or blank once trimmed. *)
Definition blank (o : option jsstring) : bool :=
  match o with
  | None => true
  | Some s => falsy (trim s)
  end.

(** The settings pass the three checks. *)
Definition configOk (input : UserInput) : bool :=
  negb (falsy (cleanApiKey input))
  && negb (hasNonAscii (cleanApiKey input))
  && negb (falsy (cleanBaseUrl input)).

(** A computation that hands nothing to [fetch]. *)
Definition keepsSent {A} (m : Async A) : Prop :=
  forall w, sent (snd (m w)) = sent w.

(** The fields of the analysis record, with the property each is read from
    and the value that stands in for a falsy one. *)
Inductive Field :=
| Fbazi | Fsummary | FsummaryScore | Fpersonality | FpersonalityScore
| Findustry | FindustryScore | FfengShui | FfengShuiScore
| Fwealth | FwealthScore | Fmarriage | FmarriageScore
| Fhealth | FhealthScore | Ffamily | FfamilyScore
| Fcrypto | FcryptoScore | FcryptoYear | FcryptoStyle.

Definition isScore (f : Field) : bool :=
  match f with
  | FsummaryScore | FpersonalityScore | FindustryScore | FfengShuiScore
  | FwealthScore | FmarriageScore | FhealthScore | FfamilyScore
  | FcryptoScore => true
  | _ => false
  end.

Definition fieldName (f : Field) : jsstring :=
  match f with
  | Fbazi => js "bazi"
  | Fsummary => js "summary"
  | FsummaryScore => js "summaryScore"
  | Fpersonality => js "personality"
  | FpersonalityScore => js "personalityScore"
  | Findustry => js "industry"
  | FindustryScore => js "industryScore"
  | FfengShui => js "fengShui"
  | FfengShuiScore => js "fengShuiScore"
  | Fwealth => js "wealth"
  | FwealthScore => js "wealthScore"
  | Fmarriage => js "marriage"
  | FmarriageScore => js "marriageScore"
  | Fhealth => js "health"
  | FhealthScore => js "healthScore"
  | Ffamily => js "family"
  | FfamilyScore => js "familyScore"
  | Fcrypto => js "crypto"
  | FcryptoScore => js "cryptoScore"
  | FcryptoYear => js "cryptoYear"
  | FcryptoStyle => js "cryptoStyle"
  end.

Definition getField (f : Field) (a : Analysis) : JSValue :=
  match f with
  | Fbazi => bazi a
  | Fsummary => summary a
  | FsummaryScore => summaryScore a
  | Fpersonality => personality a
  | FpersonalityScore => personalityScore a
  | Findustry => industry a
  | FindustryScore => industryScore a
  | FfengShui => fengShui a
  | FfengShuiScore => fengShuiScore a
  | Fwealth => wealth a
  | FwealthScore => wealthScore a
  | Fmarriage => marriage a
  | FmarriageScore => marriageScore a
  | Fhealth => health a
  | FhealthScore => healthScore a
  | Ffamily => family a
  | FfamilyScore => familyScore a
  | Fcrypto => crypto a
  | FcryptoScore => cryptoScore a
  | FcryptoYear => cryptoYear a
  | FcryptoStyle => cryptoStyle a
  end.

(** The placeholder of each text field. *)
Definition placeholder (f : Field) : jsstring :=
  match f with
  | Fsummary => js "无摘要"
  | Fpersonality => js "无性格分析"
  | FfengShui => js "建议多亲近自然，保持心境平和。"
  | Fcrypto => js "暂无交易分析"
  | FcryptoYear => js "待定"
  | FcryptoStyle => js "现货定投"
  | _ => js "无"
  end.

Definition fieldDefault (f : Field) : JSValue :=
  match f with
  | Fbazi => JArr []
  | _ => if isScore f then JNum (Number_ofZ 5) else JStr (placeholder f)
  end.

(** [data.chartPoints] is an array. *)
Definition chartPointsArray (data : JSValue) : Prop :=
  exists items, prop data (js "chartPoints") = JArr items.

(** [messages[i].content] of the body of a request. *)
Definition messageContent (i : nat) (req : Request) : JSValue :=
  match prop (body req) (js "messages") with
  | JArr items => prop (nth i items JUndefined) (js "content")
  | _ => JUndefined
  end.

(** The band before the first decade, and the [k]-th decade band, as they
    read for a start age [s]. *)
Definition preCycleText (s : Z) : jsstring :=
  js "Age 1 到 " ++ Number_toString (s - 1)
  ++ js ": daYun = " ++ dquote ++ js "童限" ++ dquote.

Definition bandText (s k : Z) : jsstring :=
  js "Age " ++ Number_toString (s + 10 * (k - 1)) ++ js " 到 "
  ++ Number_toString (s + 10 * (k - 1) + 9)
  ++ js ": daYun = [第" ++ Number_toString k ++ js "步大运".

Definition andSoOn : jsstring := js "...以此类推直到 100 岁。".

(** ** Sample data *)

(** An endpoint that answers with a well-formed reply whose content is the
    text [sampleContent], [JSON.parse] as far as this reply needs it (the
    text of the sample is parsed, nothing else is), and an input that passes
    every check. *)
Definition bslash : jsstring := [0x5C].

Definition sampleContent : jsstring :=
  js "{" ++ dquote ++ js "chartPoints" ++ dquote ++ js ":[]}".

Definition sampleReply : JSValue :=
  JObj [ (js "chartPoints", JArr []) ].

Definition sampleFetch (_ : Request) : FetchResult :=
  Responded
    {| ok := true;
       status := 200;
       text :=
         js "{" ++ dquote ++ js "choices" ++ dquote ++ js ":[{"
         ++ dquote ++ js "message" ++ dquote ++ js ":{"
         ++ dquote ++ js "content" ++ dquote ++ js ":"
         ++ dquote ++ js "{" ++ bslash ++ dquote ++ js "chartPoints"
         ++ bslash ++ dquote ++ js ":[]}" ++ dquote ++ js "}}]}";
       json :=
         Some (JObj
                 [ (js "choices",
                    JArr [ JObj [ (js "message",
                                   JObj [ (js "content",
                                           JStr sampleContent) ]) ] ]) ]) |}.

Definition sampleParse (v : JSValue) : option JSValue :=
  match v with
  | JStr s => if eqb s sampleContent then Some sampleReply else None
  | _ => None
  end.

Definition sampleInput : UserInput :=
  {| name := js "";
     gender := MALE;
     birthYear := js "1990";
     yearPillar := js "庚午";
     monthPillar := js "戊寅";
     dayPillar := js "甲子";
     hourPillar := js "丙寅";
     startAge := js "3";
     firstDaYun := js "丁卯";
     modelName := Some (js "gpt-4o");
     apiBaseUrl := Some (js "https://api.example.com/v1/");
     apiKey := Some (js "sk-test") |}.

Definition withModelName (m : option jsstring) (i : UserInput) : UserInput :=
  {| name := name i; gender := gender i; birthYear := birthYear i;
     yearPillar := yearPillar i; monthPillar := monthPillar i;
     dayPillar := dayPillar i; hourPillar := hourPillar i;
     startAge := startAge i; firstDaYun := firstDaYun i;
     modelName := m; apiBaseUrl := apiBaseUrl i; apiKey := apiKey i |}.

Definition withApiKey (k : option jsstring) (i : UserInput) : UserInput :=
  {| name := name i; gender := gender i; birthYear := birthYear i;
     yearPillar := yearPillar i; monthPillar := monthPillar i;
     dayPillar := dayPillar i; hourPillar := hourPillar i;
     startAge := startAge i; firstDaYun := firstDaYun i;
     modelName := modelName i; apiBaseUrl := apiBaseUrl i; apiKey := k |}.

Definition withStartAge (a : jsstring) (i : UserInput) : UserInput :=
  {| name := name i; gender := gender i; birthYear := birthYear i;
     yearPillar := yearPillar i; monthPillar := monthPillar i;
     dayPillar := dayPillar i; hourPillar := hourPillar i;
     startAge := a; firstDaYun := firstDaYun i;
     modelName := modelName i; apiBaseUrl := apiBaseUrl i;
     apiKey := apiKey i |}.

(** ** Vocabulary of the further statements *)

(** [s.endsWith(t)]. *)
Definition endsWith (s t : jsstring) : bool := startsWith (rev t) (rev s).

(** A string that is not empty and neither begins nor ends with white
    space. *)
Definition visibleEnds (s : jsstring) : bool :=
  match s, rev s with
  | c :: _, d :: _ => negb (isWhiteSpace c) && negb (isWhiteSpace d)
  | _, _ => false
  end.

Definition withApiBaseUrl (u : option jsstring) (i : UserInput) : UserInput :=
  {| name := name i; gender := gender i; birthYear := birthYear i;
     yearPillar := yearPillar i; monthPillar := monthPillar i;
     dayPillar := dayPillar i; hourPillar := hourPillar i;
     startAge := startAge i; firstDaYun := firstDaYun i;
     modelName := modelName i; apiBaseUrl := u; apiKey := apiKey i |}.

(** The input with white space put around each of the three settings that
    are present. *)
Definition padSettings (ws1 ws2 : jsstring) (i : UserInput) : UserInput :=
  let pad := option_map (fun s => ws1 ++ s ++ ws2) in
  {| name := name i; gender := gender i; birthYear := birthYear i;
     yearPillar := yearPillar i; monthPillar := monthPillar i;
     dayPillar := dayPillar i; hourPillar := hourPillar i;
     startAge := startAge i; firstDaYun := firstDaYun i;
     modelName := pad (modelName i); apiBaseUrl := pad (apiBaseUrl i);
     apiKey := pad (apiKey i) |}.

(** A computation that neither reads nor changes the world. *)
Definition pureAsync {A} (m : Async A) : Prop :=
  exists o, forall w, m w = (o, w).

(** [jsonResult.choices?.[0]?.message?.content], for a [jsonResult] that has
    properties. *)
Definition contentOf (jsonResult : JSValue) : JSValue :=
  optProp (optProp (optIndex0 (prop jsonResult (js "choices"))) (js "message"))
          (js "content").

(** What [console.error] receives in a run that ends with the given
    outcome. *)
Definition logged {A} (o : Outcome A) : list Exn :=
  match o with
  | Throw e => [e]
  | Return _ => []
  end.

(** An endpoint that refuses the credential, and one that cannot be
    reached. *)
Definition refusingFetch (_ : Request) : FetchResult :=
  Responded
    {| ok := false; status := 401; text := js "Unauthorized"; json := None |}.

Definition failingFetch (_ : Request) : FetchResult := Rejected TypeError.

(** Endpoints that answer with a success status and a body that is of no
    use: no choice in it, the value [null], a page that is not JSON. *)
Definition emptyChoicesFetch (_ : Request) : FetchResult :=
  Responded
    {| ok := true; status := 200;
       text := js "{" ++ dquote ++ js "choices" ++ dquote ++ js ":[]}";
       json := Some (JObj [ (js "choices", JArr []) ]) |}.

Definition nullFetch (_ : Request) : FetchResult :=
  Responded
    {| ok := true; status := 200; text := js "null"; json := Some JNull |}.

Definition pageFetch (_ : Request) : FetchResult :=
  Responded
    {| ok := true; status := 200; text := js "<html></html>"; json := None |}.

(** ** The form ([BaziForm]) *)

(** The state of the component: the data typed so far and the errors shown
    under the three API settings. *)
Record FormErrors := {
  errModelName : option jsstring;
  errApiBaseUrl : option jsstring;
  errApiKey : option jsstring
}.

Record FormState := {
  formData : UserInput;
  formErrors : FormErrors
}.

Definition noErrors : FormErrors :=
  {| errModelName := None; errApiBaseUrl := None; errApiKey := None |}.

Definition initialState : FormState :=
  {| formData :=
       {| name := js "";
          gender := MALE;
          birthYear := js "";
          yearPillar := js "";
          monthPillar := js "";
          dayPillar := js "";
          hourPillar := js "";
          startAge := js "";
          firstDaYun := js "";
          modelName := Some (js "[O]gemini-3-pro-preview");
          apiBaseUrl := Some (js "https://api.mttieeo.com/v1");
          apiKey :=
            Some (js "sk-kDW29HdIR7YEKKUl7JlSMD3ojOm8nUL4cf4vshaK1CWLaqeS") |};
     formErrors := noErrors |}.

(** The inputs that [handleChange] is attached to, with their [name]
    attribute. *)
Inductive InputName :=
| In_name | In_birthYear | In_yearPillar | In_monthPillar | In_dayPillar
| In_hourPillar | In_startAge | In_firstDaYun
| In_modelName | In_apiBaseUrl | In_apiKey.

Definition inputName (n : InputName) : jsstring :=
  match n with
  | In_name => js "name"
  | In_birthYear => js "birthYear"
  | In_yearPillar => js "yearPillar"
  | In_monthPillar => js "monthPillar"
  | In_dayPillar => js "dayPillar"
  | In_hourPillar => js "hourPillar"
  | In_startAge => js "startAge"
  | In_firstDaYun => js "firstDaYun"
  | In_modelName => js "modelName"
  | In_apiBaseUrl => js "apiBaseUrl"
  | In_apiKey => js "apiKey"
  end.

(** [{ ...prev, [name]: value }] on the data ... *)
Definition setField (n : InputName) (value : jsstring) (d : UserInput)
  : UserInput :=
  match n with
  | In_name =>
      {| name := value; gender := gender d; birthYear := birthYear d;
         yearPillar := yearPillar d; monthPillar := monthPillar d;
         dayPillar := dayPillar d; hourPillar := hourPillar d;
         startAge := startAge d; firstDaYun := firstDaYun d;
         modelName := modelName d; apiBaseUrl := apiBaseUrl d;
         apiKey := apiKey d |}
  | In_birthYear =>
      {| name := name d; gender := gender d; birthYear := value;
         yearPillar := yearPillar d; monthPillar := monthPillar d;
         dayPillar := dayPillar d; hourPillar := hourPillar d;
         startAge := startAge d; firstDaYun := firstDaYun d;
         modelName := modelName d; apiBaseUrl := apiBaseUrl d;
         apiKey := apiKey d |}
  | In_yearPillar =>
      {| name := name d; gender := gender d; birthYear := birthYear d;
         yearPillar := value; monthPillar := monthPillar d;
         dayPillar := dayPillar d; hourPillar := hourPillar d;
         startAge := startAge d; firstDaYun := firstDaYun d;
         modelName := modelName d; apiBaseUrl := apiBaseUrl d;
         apiKey := apiKey d |}
  | In_monthPillar =>
      {| name := name d; gender := gender d; birthYear := birthYear d;
         yearPillar := yearPillar d; monthPillar := value;
         dayPillar := dayPillar d; hourPillar := hourPillar d;
         startAge := startAge d; firstDaYun := firstDaYun d;
         modelName := modelName d; apiBaseUrl := apiBaseUrl d;
         apiKey := apiKey d |}
  | In_dayPillar =>
      {| name := name d; gender := gender d; birthYear := birthYear d;
         yearPillar := yearPillar d; monthPillar := monthPillar d;
         dayPillar := value; hourPillar := hourPillar d;
         startAge := startAge d; firstDaYun := firstDaYun d;
         modelName := modelName d; apiBaseUrl := apiBaseUrl d;
         apiKey := apiKey d |}
  | In_hourPillar =>
      {| name := name d; gender := gender d; birthYear := birthYear d;
         yearPillar := yearPillar d; monthPillar := monthPillar d;
         dayPillar := dayPillar d; hourPillar := value;
         startAge := startAge d; firstDaYun := firstDaYun d;
         modelName := modelName d; apiBaseUrl := apiBaseUrl d;
         apiKey := apiKey d |}
  | In_startAge =>
      {| name := name d; gender := gender d; birthYear := birthYear d;
         yearPillar := yearPillar d; monthPillar := monthPillar d;
         dayPillar := dayPillar d; hourPillar := hourPillar d;
         startAge := value; firstDaYun := firstDaYun d;
         modelName := modelName d; apiBaseUrl := apiBaseUrl d;
         apiKey := apiKey d |}
  | In_firstDaYun =>
      {| name := name d; gender := gender d; birthYear := birthYear d;
         yearPillar := yearPillar d; monthPillar := monthPillar d;
         dayPillar := dayPillar d; hourPillar := hourPillar d;
         startAge := startAge d; firstDaYun := value;
         modelName := modelName d; apiBaseUrl := apiBaseUrl d;
         apiKey := apiKey d |}
  | In_modelName =>
      {| name := name d; gender := gender d; birthYear := birthYear d;
         yearPillar := yearPillar d; monthPillar := monthPillar d;
         dayPillar := dayPillar d; hourPillar := hourPillar d;
         startAge := startAge d; firstDaYun := firstDaYun d;
         modelName := Some value; apiBaseUrl := apiBaseUrl d;
         apiKey := apiKey d |}
  | In_apiBaseUrl =>
      {| name := name d; gender := gender d; birthYear := birthYear d;
         yearPillar := yearPillar d; monthPillar := monthPillar d;
         dayPillar := dayPillar d; hourPillar := hourPillar d;
         startAge := startAge d; firstDaYun := firstDaYun d;
         modelName := modelName d; apiBaseUrl := Some value;
         apiKey := apiKey d |}
  | In_apiKey =>
      {| name := name d; gender := gender d; birthYear := birthYear d;
         yearPillar := yearPillar d; monthPillar := monthPillar d;
         dayPillar := dayPillar d; hourPillar := hourPillar d;
         startAge := startAge d; firstDaYun := firstDaYun d;
         modelName := modelName d; apiBaseUrl := apiBaseUrl d;
         apiKey := Some value |}
  end.

(** ... and [{ ...prev, [name]: undefined }] on the errors. *)
Definition clearError (n : InputName) (e : FormErrors) : FormErrors :=
  match n with
  | In_modelName =>
      {| errModelName := None; errApiBaseUrl := errApiBaseUrl e;
         errApiKey := errApiKey e |}
  | In_apiBaseUrl =>
      {| errModelName := errModelName e; errApiBaseUrl := None;
         errApiKey := errApiKey e |}
  | In_apiKey =>
      {| errModelName := errModelName e; errApiBaseUrl := errApiBaseUrl e;
         errApiKey := None |}
  | _ => e
  end.

Definition handleChange (n : InputName) (value : jsstring) (st : FormState)
  : FormState :=
  {| formData := setField n value (formData st);
     formErrors :=
       if eqb (inputName n) (js "apiBaseUrl")
          || eqb (inputName n) (js "apiKey")
          || eqb (inputName n) (js "modelName")
       then clearError n (formErrors st)
       else formErrors st |}.

(** The two gender buttons. *)
Definition pickGender (g : Gender) (st : FormState) : FormState :=
  {| formData :=
       {| name := name (formData st); gender := g;
          birthYear := birthYear (formData st);
          yearPillar := yearPillar (formData st);
          monthPillar := monthPillar (formData st);
          dayPillar := dayPillar (formData st);
          hourPillar := hourPillar (formData st);
          startAge := startAge (formData st);
          firstDaYun := firstDaYun (formData st);
          modelName := modelName (formData st);
          apiBaseUrl := apiBaseUrl (formData st);
          apiKey := apiKey (formData st) |};
     formErrors := formErrors st |}.

(** What [handleSubmit] does in the end: it shows errors, or hands the data
    to [onSubmit].  Calling [trim] on a setting that is not there is a
    [TypeError]. *)
Inductive SubmitAction :=
| SetFormErrors (errors : FormErrors)
| OnSubmit (data : UserInput).

Definition handleSubmit (formData : UserInput) : Outcome SubmitAction :=
  match modelName formData with
  | None => Throw TypeError
  | Some m =>
      match apiBaseUrl formData with
      | None => Throw TypeError
      | Some u =>
          match apiKey formData with
          | None => Throw TypeError
          | Some k =>
              let errors :=
                {| errModelName :=
                     if falsy (trim m) then Some (js "请输入模型名称")
                     else None;
                   errApiBaseUrl :=
                     if falsy (trim u) then Some (js "请输入 API Base URL")
                     else None;
                   errApiKey :=
                     if falsy (trim k) then Some (js "请输入 API Key")
                     else None |} in
              match errModelName errors, errApiBaseUrl errors,
                    errApiKey errors with
              | None, None, None => Return (OnSubmit formData)
              | _, _, _ => Return (SetFormErrors errors)
              end
          end
      end
  end.

(** The text shown as the current sorting rule. *)
Definition daYunDirectionInfo (formData : UserInput) : jsstring :=
  if falsy (yearPillar formData) then js "等待输入年柱..."
  else
    let isYangYear :=
      if includes yinStems (firstChar (yearPillar formData)) then false
      else true in
    let isForward :=
      match gender formData with
      | MALE => isYangYear
      | FEMALE => negb isYangYear
      end in
    if isForward then js "顺行 (阳男/阴女)" else js "逆行 (阴男/阳女)".

(** What the user does, one event at a time: typing in an input, picking a
    gender, submitting.  A step gives the next state and the data handed to
    [onSubmit], if any. *)
Inductive Event :=
| Change (n : InputName) (value : jsstring)
| PickGender (g : Gender)
| Submit.

Definition step (st : FormState) (ev : Event)
  : Outcome (FormState * list UserInput) :=
  match ev with
  | Change n value => Return (handleChange n value st, [])
  | PickGender g => Return (pickGender g st, [])
  | Submit =>
      match handleSubmit (formData st) with
      | Throw e => Throw e
      | Return (SetFormErrors errors) =>
          Return ({| formData := formData st; formErrors := errors |}, [])
      | Return (OnSubmit data) => Return (st, [data])
      end
  end.

Fixpoint runEvents (st : FormState) (evs : list Event)
  : Outcome (FormState * list UserInput) :=
  match evs with
  | [] => Return (st, [])
  | ev :: evs' =>
      match step st ev with
      | Throw e => Throw e
      | Return (st1, calls1) =>
          match runEvents st1 evs' with
          | Throw e => Throw e
          | Return (st2, calls2) => Return (st2, calls1 ++ calls2)
          end
      end
  end.

(** The three settings are present and none is blank. *)
Definition settingsFilled (d : UserInput) : bool :=
  negb (blank (modelName d)) && negb (blank (apiBaseUrl d))
  && negb (blank (apiKey d)).

(** An error is shown under a setting only if the setting is blank. *)
Definition shownIfBlank (err setting : option jsstring) : bool :=
  match setting with
  | None => false
  | Some s => match err with Some _ => falsy (trim s) | None => true end
  end.

Definition errorsJustified (st : FormState) : bool :=
  shownIfBlank (errModelName (formErrors st)) (modelName (formData st))
  && shownIfBlank (errApiBaseUrl (formErrors st)) (apiBaseUrl (formData st))
  && shownIfBlank (errApiKey (formErrors st)) (apiKey (formData st)).

Definition opposite (d : Direction) : Direction :=
  match d with FORWARD => BACKWARD | BACKWARD => FORWARD end.

(** * Properties *)

(** ** Strings *)

Lemma eqb_eq (a b : jsstring) : eqb a b = true <-> a = b.
Proof.
  revert b; induction a as [|x a IH]; intros [|y b]; simpl;
    try (split; (reflexivity || discriminate)).
  rewrite andb_true_iff, N.eqb_eq, IH. split.
  - intros [-> ->]; reflexivity.
  - intros E; injection E; auto.
Qed.

Lemma includes_In (arr : list jsstring) (x : jsstring) :
  includes arr x = true <-> In x arr.
Proof.
  unfold includes. rewrite existsb_exists. split.
  - intros (y & Hy & E). apply eqb_eq in E. subst. assumption.
  - intros H. exists x. split; [assumption | apply eqb_eq; reflexivity].
Qed.

Lemma trimStart_padding (ws s : jsstring) :
  allWhiteSpace ws -> trimStart (ws ++ s) = trimStart s.
Proof.
  induction 1 as [|c ws Hc _ IH]; simpl; [reflexivity|].
  rewrite Hc. exact IH.
Qed.

Lemma trimStart_blank (ws : jsstring) : allWhiteSpace ws -> trimStart ws = [].
Proof.
  intros H. rewrite <- (app_nil_r ws), trimStart_padding by assumption.
  reflexivity.
Qed.

Lemma allWhiteSpace_rev (ws : jsstring) :
  allWhiteSpace ws -> allWhiteSpace (rev ws).
Proof. apply Forall_rev. Qed.

Lemma trimEnd_padding (s ws : jsstring) :
  allWhiteSpace ws -> trimEnd (s ++ ws) = trimEnd s.
Proof.
  intros H. unfold trimEnd.
  rewrite rev_app_distr, trimStart_padding by (apply allWhiteSpace_rev; exact H).
  reflexivity.
Qed.

(** What [trimStart] leaves is either nothing, when the string is blank, or a
    suffix that starts with a visible character and is not affected by what
    is appended. *)
Lemma trimStart_app (s t : jsstring) :
  trimStart (s ++ t) =
    match trimStart s with
    | [] => trimStart t
    | _ :: _ => trimStart s ++ t
    end.
Proof.
  induction s as [|c s IH]; simpl.
  - destruct (trimStart t); reflexivity.
  - destruct (isWhiteSpace c); [exact IH | reflexivity].
Qed.

Lemma trim_padding (ws1 s ws2 : jsstring) :
  allWhiteSpace ws1 -> allWhiteSpace ws2 ->
  trim (ws1 ++ s ++ ws2) = trim s.
Proof.
  intros H1 H2. unfold trim.
  rewrite trimStart_padding by assumption.
  rewrite trimStart_app.
  destruct (trimStart s) as [|c r] eqn:E.
  - rewrite trimStart_blank by assumption. reflexivity.
  - apply trimEnd_padding. assumption.
Qed.

Lemma trimEnd_cons (c : N) (s : jsstring) :
  isWhiteSpace c = false -> trimEnd (c :: s) = c :: trimEnd s.
Proof.
  intros Hc. unfold trimEnd. simpl rev.
  rewrite trimStart_app.
  destruct (trimStart (rev s)) as [|d r] eqn:E; simpl.
  - rewrite Hc. reflexivity.
  - rewrite rev_app_distr. reflexivity.
Qed.

Lemma trim_cons (c : N) (s : jsstring) :
  isWhiteSpace c = false -> trim (c :: s) = c :: trimEnd s.
Proof.
  intros Hc. unfold trim. simpl. rewrite Hc. apply trimEnd_cons, Hc.
Qed.

Lemma trimStart_visible (s : jsstring) :
  match trimStart s with
  | [] => True
  | c :: _ => isWhiteSpace c = false
  end.
Proof.
  induction s as [|c s IH]; simpl; [exact I|].
  destruct (isWhiteSpace c) eqn:E; [exact IH | exact E].
Qed.

Lemma trimStart_idem (s : jsstring) : trimStart (trimStart s) = trimStart s.
Proof.
  pose proof (trimStart_visible s) as H.
  destruct (trimStart s) as [|c r]; [reflexivity|].
  simpl. rewrite H. reflexivity.
Qed.

Lemma trimEnd_idem (s : jsstring) : trimEnd (trimEnd s) = trimEnd s.
Proof.
  unfold trimEnd. rewrite rev_involutive, trimStart_idem. reflexivity.
Qed.

Lemma trim_idem (s : jsstring) : trim (trim s) = trim s.
Proof.
  unfold trim. pose proof (trimStart_visible s) as H.
  destruct (trimStart s) as [|c r]; [reflexivity|].
  rewrite trimEnd_cons by exact H. simpl trimStart. rewrite H.
  rewrite <- trimEnd_cons by exact H. apply trimEnd_idem.
Qed.

(** ** Polarity and direction *)

Example yangStems_units :
  yangStems = [[0x7532]; [0x4E19]; [0x620A]; [0x5E9A]; [0x58EC]].
Proof. reflexivity. Qed.

Example yinStems_units :
  yinStems = [[0x4E59]; [0x4E01]; [0x5DF1]; [0x8F9B]; [0x7678]].
Proof. reflexivity. Qed.

Lemma stem_visible (stem : jsstring) :
  In stem (yangStems ++ yinStems) ->
  exists c, stem = [c] /\ isWhiteSpace c = false.
Proof.
  simpl. intros H.
  repeat (destruct H as [<- | H]; [eexists; split; reflexivity|]).
  contradiction.
Qed.

Lemma firstChar_stemPillar (stem rest : jsstring) :
  In stem (yangStems ++ yinStems) -> firstChar (stem ++ rest) = stem.
Proof.
  intros H. destruct (stem_visible stem H) as (c & -> & Hc).
  unfold firstChar. simpl app. rewrite trim_cons by exact Hc. reflexivity.
Qed.

Lemma stems_disjoint (x : jsstring) : In x yangStems -> In x yinStems -> False.
Proof.
  simpl. intros H1 H2.
  repeat (destruct H1 as [<- | H1];
          [repeat (destruct H2 as [H2 | H2]; [discriminate H2|]);
           contradiction|]).
  contradiction.
Qed.

Lemma getStemPolarity_YIN (pillar : jsstring) :
  getStemPolarity pillar = YIN <-> In (firstChar pillar) yinStems.
Proof.
  unfold getStemPolarity. destruct pillar as [|c r].
  - simpl. split; [discriminate|].
    intros H. repeat (destruct H as [H | H]; [discriminate H|]). contradiction.
  - cbn [falsy].
    destruct (includes yangStems (firstChar (c :: r))) eqn:Ey.
    + apply includes_In in Ey. split; [discriminate|].
      intros Hi. destruct (stems_disjoint _ Ey Hi).
    + destruct (includes yinStems (firstChar (c :: r))) eqn:Ei.
      * apply includes_In in Ei. tauto.
      * split; [discriminate|]. intros Hi. apply includes_In in Hi. congruence.
Qed.

Lemma getStemPolarity_YANG (pillar : jsstring) :
  getStemPolarity pillar = YANG <-> ~ In (firstChar pillar) yinStems.
Proof.
  rewrite <- getStemPolarity_YIN.
  destruct (getStemPolarity pillar); split; congruence.
Qed.

Lemma getStemPolarity_yang_stem (p : jsstring) :
  stemPillar yangStems p -> getStemPolarity p = YANG.
Proof.
  intros (stem & rest & Hin & ->). apply getStemPolarity_YANG.
  rewrite firstChar_stemPillar by (apply in_or_app; left; exact Hin).
  intros Hi. exact (stems_disjoint _ Hin Hi).
Qed.

Lemma getStemPolarity_yin_stem (p : jsstring) :
  stemPillar yinStems p -> getStemPolarity p = YIN.
Proof.
  intros (stem & rest & Hin & ->). apply getStemPolarity_YIN.
  rewrite firstChar_stemPillar by (apply in_or_app; right; exact Hin).
  exact Hin.
Qed.

Lemma resolveDirection_polarity (p q : jsstring) (g : Gender) :
  getStemPolarity p = getStemPolarity q ->
  resolveDirection p g = resolveDirection q g.
Proof.
  unfold resolveDirection, isForward. intros ->. reflexivity.
Qed.

(** C1. The direction is forward exactly for a male subject with a Yang year
    stem or a female subject with a Yin year stem, and backward in every other
    case.  The polarity is Yin exactly when the first character of the
    trimmed pillar is in the table of the five Yin stems and Yang otherwise,
    which covers the five Yang stems: a pillar that starts with a Yang stem
    runs forward for a male and backward for a female subject, and a pillar
    that starts with a Yin stem the other way round.  The text placed in the
    prompt follows the direction. *)
Theorem direction_forward_iff (pillar : jsstring) (g : Gender) :
  (resolveDirection pillar g = FORWARD <->
     (g = MALE /\ getStemPolarity pillar = YANG)
     \/ (g = FEMALE /\ getStemPolarity pillar = YIN))
  /\ (resolveDirection pillar g = BACKWARD <->
        ~ ((g = MALE /\ getStemPolarity pillar = YANG)
           \/ (g = FEMALE /\ getStemPolarity pillar = YIN)))
  /\ (getStemPolarity pillar = YIN <-> In (firstChar pillar) yinStems)
  /\ (In (firstChar pillar) yangStems -> getStemPolarity pillar = YANG)
  /\ (stemPillar yangStems pillar ->
        resolveDirection pillar MALE = FORWARD
        /\ resolveDirection pillar FEMALE = BACKWARD)
  /\ (stemPillar yinStems pillar ->
        resolveDirection pillar MALE = BACKWARD
        /\ resolveDirection pillar FEMALE = FORWARD)
  /\ List.length yangStems = 5%nat /\ List.length yinStems = 5%nat
  /\ daYunDirectionStr (isForward pillar g) =
       match resolveDirection pillar g with
       | FORWARD => js "顺行 (Forward)"
       | BACKWARD => js "逆行 (Backward)"
       end.
Proof.
  repeat match goal with |- _ /\ _ => split end; try reflexivity.
  - unfold resolveDirection, isForward.
    destruct g, (getStemPolarity pillar); simpl; split;
      solve [ intros _; auto | discriminate
            | intros [[? ?] | [? ?]]; discriminate ].
  - unfold resolveDirection, isForward.
    destruct g, (getStemPolarity pillar); simpl; split;
      solve [ intros _ [[? ?] | [? ?]]; discriminate | discriminate
            | intros _; reflexivity | intros H; exfalso; apply H; auto ].
  - apply getStemPolarity_YIN.
  - intros H. apply getStemPolarity_YANG.
    intros Hi. exact (stems_disjoint _ H Hi).
  - intros H. unfold resolveDirection, isForward.
    rewrite (getStemPolarity_yang_stem pillar H). split; reflexivity.
  - intros H. unfold resolveDirection, isForward.
    rewrite (getStemPolarity_yin_stem pillar H). split; reflexivity.
  - unfold resolveDirection. destruct (isForward pillar g); reflexivity.
Qed.

Lemma direction_forward_iff_witness :
  stemPillar yangStems (js "甲子")
  /\ resolveDirection (js "甲子") MALE = FORWARD
  /\ resolveDirection (js "甲子") FEMALE = BACKWARD.
Proof.
  assert (H : stemPillar yangStems (js "甲子")).
  { exists (js "甲"), (js "子"). split; [left|]; reflexivity. }
  split; [exact H|].
  exact (proj1 (proj2 (proj2 (proj2 (proj2
           (direction_forward_iff (js "甲子") MALE))))) H).
Defined.

(** C6. A pillar that is empty, or whose first character is in neither stem
    table, has polarity Yang: no error is involved, the function is total.
    Its direction is then, for either gender, the direction of any pillar
    that starts with a Yang stem.  The first character is the one the lookup
    reads, that of the trimmed pillar; when the pillar does not begin with
    white space it is the first character of the pillar as given. *)
Theorem polarity_fallback_yang (pillar : jsstring) :
  pillar = []
  \/ (~ In (firstChar pillar) yangStems /\ ~ In (firstChar pillar) yinStems) ->
  getStemPolarity pillar = YANG
  /\ (forall (g : Gender) (p : jsstring),
        stemPillar yangStems p ->
        resolveDirection pillar g = resolveDirection p g)
  /\ (forall c r,
        pillar = c :: r -> isWhiteSpace c = false ->
        firstChar pillar = charAt pillar 0).
Proof.
  intros H.
  assert (E : getStemPolarity pillar = YANG).
  { destruct H as [-> | [_ Hyin]]; [reflexivity|].
    apply getStemPolarity_YANG. exact Hyin. }
  split; [exact E|]. split.
  - intros g p Hp. apply resolveDirection_polarity.
    rewrite E. symmetry. apply getStemPolarity_yang_stem. exact Hp.
  - intros c r -> Hc. unfold firstChar. rewrite trim_cons by exact Hc.
    reflexivity.
Qed.

Lemma polarity_fallback_yang_witness :
  getStemPolarity (js "") = YANG
  /\ resolveDirection (js "") FEMALE = resolveDirection (js "庚午") FEMALE.
Proof.
  destruct (polarity_fallback_yang (js "") (or_introl eq_refl)) as (E & H & _).
  split; [exact E|].
  apply H. exists (js "庚"), (js "午"). split; [|reflexivity].
  right; right; right; left; reflexivity.
Defined.

(** C7. White space put around a pillar, or taken away from it, does not
    change the direction: the first character is read from the trimmed
    string. *)
Theorem direction_ignores_padding (ws1 s ws2 : jsstring) (g : Gender) :
  allWhiteSpace ws1 -> allWhiteSpace ws2 ->
  firstChar (ws1 ++ s ++ ws2) = charAt (trim s) 0
  /\ resolveDirection (ws1 ++ s ++ ws2) g = resolveDirection s g
  /\ resolveDirection (trim s) g = resolveDirection s g.
Proof.
  intros H1 H2.
  assert (F : forall a b, trim a = trim b ->
                getStemPolarity a = getStemPolarity b).
  { intros a b E. unfold getStemPolarity, firstChar. rewrite E.
    destruct a as [|x a], b as [|y b]; try reflexivity.
    cbn [falsy]. rewrite <- E. reflexivity. }
  split; [|split].
  - unfold firstChar. rewrite trim_padding by assumption. reflexivity.
  - apply resolveDirection_polarity, F, trim_padding; assumption.
  - apply resolveDirection_polarity, F.
    apply trim_idem.
Qed.

Lemma direction_ignores_padding_witness :
  resolveDirection (js "  " ++ js "乙丑" ++ [0x3000; 0x0A]) MALE
  = resolveDirection (js "乙丑") MALE.
Proof.
  refine (proj1 (proj2 (direction_ignores_padding
                          (js "  ") (js "乙丑") [0x3000; 0x0A] MALE _ _)));
    repeat constructor.
Defined.

(** ** Configuration checks *)

Create HintDb keeps.

Lemma keeps_ret {A} (a : A) : keepsSent (ret a).
Proof. intros w; reflexivity. Qed.

Lemma keeps_throw {A} (e : Exn) : keepsSent (@throw A e).
Proof. intros w; reflexivity. Qed.

Lemma keeps_lift {A} (o : Outcome A) : keepsSent (lift o).
Proof. intros w; reflexivity. Qed.

Lemma keeps_console_error (e : Exn) : keepsSent (console_error e).
Proof. intros w; reflexivity. Qed.

Lemma keeps_bind {A B} (m : Async A) (k : A -> Async B) :
  keepsSent m -> (forall a, keepsSent (k a)) -> keepsSent (bind m k).
Proof.
  intros Hm Hk w. unfold bind. specialize (Hm w).
  destruct (m w) as [[a|e] w']; simpl in *.
  - rewrite Hk. exact Hm.
  - exact Hm.
Qed.

Lemma keeps_if {A} (b : bool) (m1 m2 : Async A) :
  keepsSent m1 -> keepsSent m2 -> keepsSent (if b then m1 else m2).
Proof. destruct b; auto. Qed.

#[local] Hint Resolve keeps_ret keeps_throw keeps_lift keeps_console_error
  keeps_bind keeps_if : keeps.

Section ServiceFacts.

Variable fetch : Request -> FetchResult.
Variable JSON_parse : JSValue -> option JSValue.
Variable BAZI_SYSTEM_INSTRUCTION : jsstring.

Local Abbreviation run :=
  (generateLifeAnalysis fetch JSON_parse BAZI_SYSTEM_INSTRUCTION).
Local Abbreviation request := (chatRequest BAZI_SYSTEM_INSTRUCTION).

Lemma cleanApiKey_blank (input : UserInput) :
  blank (apiKey input) = true -> cleanApiKey input = [].
Proof.
  unfold blank, cleanApiKey. destruct (apiKey input) as [k|]; [|reflexivity].
  destruct k as [|c k]; [reflexivity|]. cbn [falsy].
  destruct (trim (c :: k)); [reflexivity | discriminate].
Qed.

Lemma cleanBaseUrl_blank (input : UserInput) :
  blank (apiBaseUrl input) = true -> cleanBaseUrl input = [].
Proof.
  unfold blank, cleanBaseUrl.
  destruct (apiBaseUrl input) as [u|]; [|reflexivity].
  destruct u as [|c u]; [reflexivity|]. cbn [falsy].
  destruct (trim (c :: u)); [reflexivity | discriminate].
Qed.

Lemma targetModel_blank (input : UserInput) :
  blank (modelName input) = true -> targetModel input = defaultModel.
Proof.
  unfold blank, targetModel. destruct (modelName input) as [m|]; [|reflexivity].
  intros ->. rewrite andb_false_r. reflexivity.
Qed.

(** Once the three checks are passed, the request is handed to [fetch],
    whatever the reply turns out to be. *)
Lemma run_sends (input : UserInput) (w : World) :
  configOk input = true ->
  sent (snd (run input w)) = sent w ++ [request input].
Proof.
  unfold configOk. rewrite !andb_true_iff, !negb_true_iff.
  intros [[H1 H2] H3].
  unfold generateLifeAnalysis. rewrite H1, H2, H3.
  assert (Hh : forall error : Exn,
             keepsSent (console_error error ;;; @throw LifeDestinyResult error))
    by auto with keeps.
  assert (Hk : forall r, keepsSent (readResponse JSON_parse r))
    by (intros r; unfold readResponse; auto 10 with keeps).
  unfold keepsSent in Hh, Hk.
  unfold tryCatch, bind at 1, await_fetch.
  destruct (fetch (request input)) as [e|r].
  - exact (Hh e _).
  - match goal with
    | |- context [readResponse _ _ ?w0] =>
        specialize (Hk r w0);
        destruct (readResponse JSON_parse r w0) as [[a|e] w']
    end; cbn [snd sent] in Hk |- *.
    + exact Hk.
    + etransitivity; [exact (Hh e _) | exact Hk].
Qed.

Lemma run_rejects (input : UserInput) (w : World) :
  configOk input = false ->
  exists msg,
    In msg [missingApiKey; badApiKey; missingBaseUrl]
    /\ run input w = (Throw (Error msg), w).
Proof.
  unfold configOk, run, generateLifeAnalysis, throw. intros H.
  destruct (falsy (cleanApiKey input)).
  - exists missingApiKey. split; [left|]; reflexivity.
  - destruct (hasNonAscii (cleanApiKey input)).
    + exists badApiKey. split; [right; left|]; reflexivity.
    + destruct (falsy (cleanBaseUrl input)); [|discriminate H].
      exists missingBaseUrl. split; [right; right; left|]; reflexivity.
Qed.

Lemma hasNonAscii_not_falsy (s : jsstring) :
  hasNonAscii s = true -> falsy s = false.
Proof. destruct s; [discriminate | reflexivity]. Qed.

Lemma cleanApiKey_trim (input : UserInput) (k : jsstring) :
  apiKey input = Some k -> cleanApiKey input = trim k.
Proof.
  unfold cleanApiKey. intros ->. destruct k; reflexivity.
Qed.

Lemma request_model (input : UserInput) :
  prop (body (request input)) (js "model") = JStr (targetModel input).
Proof. reflexivity. Qed.

(** C2, as the service has it.  A credential or base URL that is missing or
    blank once trimmed makes the call fail at once with one of the three
    configuration messages, and the world is left as it was: nothing was
    handed to [fetch].  A target model that is missing or blank is not an
    error: the default model takes its place, and when the credential and
    the URL pass the checks the request is sent with that model. *)
Theorem config_checks_before_request (input : UserInput) (w : World) :
  (blank (apiKey input) = true ->
     run input w = (Throw (Error missingApiKey), w))
  /\ (blank (apiBaseUrl input) = true ->
        exists msg,
          In msg [missingApiKey; badApiKey; missingBaseUrl]
          /\ run input w = (Throw (Error msg), w))
  /\ (blank (modelName input) = true ->
        targetModel input = defaultModel
        /\ (configOk input = true ->
              sent (snd (run input w)) = sent w ++ [request input]
              /\ prop (body (request input)) (js "model")
                 = JStr defaultModel)).
Proof.
  split; [|split].
  - intros H. unfold generateLifeAnalysis.
    rewrite (cleanApiKey_blank input H). reflexivity.
  - intros H. apply run_rejects. unfold configOk.
    rewrite (cleanBaseUrl_blank input H).
    cbn [falsy negb]. apply andb_false_r.
  - intros H. pose proof (targetModel_blank input H) as E.
    split; [exact E|]. intros Hok. split.
    + apply run_sends, Hok.
    + rewrite request_model, E. reflexivity.
Qed.

(** C5, as the service has it.  A credential that still holds a code unit
    above 127 once trimmed makes the call fail at once with the message
    about illegal characters, and the world is left as it was.  The check
    reads the trimmed credential, which is also what the request carries:
    whatever the input, a request handed to [fetch] by this call has an
    [Authorization] header made of ASCII characters only. *)
Theorem nonascii_credential_rejected (input : UserInput) (w : World) :
  (hasNonAscii (cleanApiKey input) = true ->
     run input w = (Throw (Error badApiKey), w))
  /\ (forall k, apiKey input = Some k -> cleanApiKey input = trim k)
  /\ (forall req,
        In req (sent (snd (run input w))) ->
        In req (sent w)
        \/ (req = request input
            /\ headers req =
                 [ (js "Content-Type", js "application/json");
                   (js "Authorization", js "Bearer " ++ cleanApiKey input) ]
            /\ hasNonAscii (js "Bearer " ++ cleanApiKey input) = false)).
Proof.
  split; [|split].
  - intros H. unfold generateLifeAnalysis.
    rewrite (hasNonAscii_not_falsy _ H), H. reflexivity.
  - apply cleanApiKey_trim.
  - intros req Hin. destruct (configOk input) eqn:Hok.
    + rewrite (run_sends input w Hok) in Hin.
      apply in_app_or in Hin. destruct Hin as [Hin | [<- | []]].
      * left; exact Hin.
      * right. split; [reflexivity|]. split; [reflexivity|].
        unfold configOk in Hok.
        rewrite !andb_true_iff, !negb_true_iff in Hok.
        destruct Hok as [[_ Ha] _].
        unfold hasNonAscii in *. rewrite existsb_app, Ha. reflexivity.
    + destruct (run_rejects input w Hok) as (msg & _ & E).
      rewrite E in Hin. left; exact Hin.
Qed.

End ServiceFacts.

Lemma config_checks_before_request_witness :
  blank (apiKey (withApiKey (Some (js "  ")) sampleInput)) = true
  /\ generateLifeAnalysis sampleFetch sampleParse (js "")
       (withApiKey (Some (js "  ")) sampleInput) emptyWorld
     = (Throw (Error missingApiKey), emptyWorld).
Proof.
  split; [reflexivity|].
  apply (proj1 (config_checks_before_request sampleFetch sampleParse (js "")
                  (withApiKey (Some (js "  ")) sampleInput) emptyWorld)).
  reflexivity.
Defined.

(** The claim C2 as worded fails for the target model: with a blank model
    name and a valid credential and URL the call raises nothing, and the
    request goes out under the default model. *)
Lemma blank_model_request_sent :
  blank (modelName (withModelName (Some (js "  ")) sampleInput)) = true
  /\ exists r,
       generateLifeAnalysis sampleFetch sampleParse (js "")
         (withModelName (Some (js "  ")) sampleInput) emptyWorld
       = (Return r,
          {| sent :=
               [chatRequest (js "")
                  (withModelName (Some (js "  ")) sampleInput)];
             console := [] |})
       /\ prop (body (chatRequest (js "")
                        (withModelName (Some (js "  ")) sampleInput)))
               (js "model")
          = JStr (js "[O]gemini-3-pro-preview").
Proof.
  split; [reflexivity|]. eexists. split; vm_compute; reflexivity.
Qed.

Lemma nonascii_credential_rejected_witness :
  hasNonAscii (cleanApiKey (withApiKey (Some (js "sk-测试123")) sampleInput))
  = true
  /\ generateLifeAnalysis sampleFetch sampleParse (js "")
       (withApiKey (Some (js "sk-测试123")) sampleInput) emptyWorld
     = (Throw (Error badApiKey), emptyWorld).
Proof.
  split; [reflexivity|].
  apply (proj1 (nonascii_credential_rejected sampleFetch sampleParse (js "")
                  (withApiKey (Some (js "sk-测试123")) sampleInput)
                  emptyWorld)).
  reflexivity.
Defined.

(** The claim C5 as worded fails for a credential whose only character above
    127 is white space at one end, here a no-break space: trimming removes
    it, no error is raised, and the request carries the trimmed credential. *)
Lemma nbsp_credential_accepted :
  hasNonAscii (js "sk-test" ++ [0xA0]) = true
  /\ exists r,
       generateLifeAnalysis sampleFetch sampleParse (js "")
         (withApiKey (Some (js "sk-test" ++ [0xA0])) sampleInput) emptyWorld
       = (Return r,
          {| sent :=
               [chatRequest (js "")
                  (withApiKey (Some (js "sk-test" ++ [0xA0])) sampleInput)];
             console := [] |})
       /\ headers (chatRequest (js "")
                     (withApiKey (Some (js "sk-test" ++ [0xA0])) sampleInput))
          = [ (js "Content-Type", js "application/json");
              (js "Authorization", js "Bearer sk-test") ].
Proof.
  split; [reflexivity|]. eexists. split; vm_compute; reflexivity.
Qed.

(** ** The reply *)

Lemma validate_object (props : list (jsstring * JSValue))
                      (items : list JSValue) :
  lookup (js "chartPoints") props = JArr items ->
  exists r,
    validate (JObj props) = Return r
    /\ chartData r = JArr items
    /\ forall f,
         getField f (analysis r) =
           or_ (lookup (fieldName f) props) (fieldDefault f).
Proof.
  intros H. unfold validate, getProp. cbn [nullish prop]. rewrite H.
  cbn [truthy isArray negb orb]. eexists. split; [reflexivity|].
  split; [reflexivity|]. intros f; destruct f; lazy; reflexivity.
Qed.

Lemma chartPointsArray_object (data : JSValue) :
  chartPointsArray data ->
  exists props items,
    data = JObj props /\ lookup (js "chartPoints") props = JArr items.
Proof.
  intros [items H]. destruct data; try discriminate H.
  exists props, items. split; [reflexivity | exact H].
Qed.

Lemma validate_not_array (data : JSValue) :
  ~ chartPointsArray data ->
  validate data =
    Throw (if nullish data then TypeError else Error missingChartPoints).
Proof.
  intros H. unfold validate, getProp.
  destruct (nullish data) eqn:En; [reflexivity|].
  destruct (prop data (js "chartPoints")) as [| |b|x|s|items|ps] eqn:E;
    cbn [truthy isArray negb orb];
    try rewrite orb_true_r; try reflexivity.
  exfalso. apply H. exists items. exact E.
Qed.

(** C3. The check of the reply fails exactly when [chartPoints] is missing
    or is not an array.  The error is then the one with the message about
    the missing [chartPoints], except for a reply that is [null], on which
    reading the property is itself a [TypeError].  With an array there, a
    result is returned whatever the other fields are. *)
Theorem validate_fails_iff (data : JSValue) :
  ((exists e, validate data = Throw e) <-> ~ chartPointsArray data)
  /\ (~ chartPointsArray data ->
        validate data =
          Throw (if nullish data then TypeError else Error missingChartPoints))
  /\ (chartPointsArray data ->
        exists r, validate data = Return r
                  /\ chartData r = prop data (js "chartPoints")).
Proof.
  assert (Hret : chartPointsArray data ->
                 exists r, validate data = Return r
                           /\ chartData r = prop data (js "chartPoints")).
  { intros H. destruct (chartPointsArray_object data H) as (ps & items & -> & E).
    destruct (validate_object ps items E) as (r & Hr & Hc & _).
    exists r. split; [exact Hr|]. cbn [prop]. rewrite E. exact Hc. }
  split; [|split].
  - split.
    + intros [e He] Harr. destruct (Hret Harr) as (r & Hr & _). congruence.
    + intros H. eexists. apply validate_not_array, H.
  - apply validate_not_array.
  - exact Hret.
Qed.

Lemma validate_fails_iff_witness :
  chartPointsArray
    (JObj [ (js "summary", JNum (Number_ofZ 42));
            (js "healthScore", JObj []);
            (js "chartPoints", JArr [JNull]) ])
  /\ exists r,
       validate (JObj [ (js "summary", JNum (Number_ofZ 42));
                        (js "healthScore", JObj []);
                        (js "chartPoints", JArr [JNull]) ]) = Return r
       /\ chartData r = JArr [JNull].
Proof.
  assert (H : chartPointsArray
                (JObj [ (js "summary", JNum (Number_ofZ 42));
                        (js "healthScore", JObj []);
                        (js "chartPoints", JArr [JNull]) ]))
    by (exists [JNull]; reflexivity).
  split; [exact H|].
  exact (proj2 (proj2 (validate_fails_iff _)) H).
Defined.

(** C4. For the reply [{chartPoints: []}] a result is returned: its chart is
    empty, each of the nine score fields holds 5 and each text field holds
    its placeholder. *)
Theorem validate_empty_reply :
  validate (JObj [ (js "chartPoints", JArr []) ]) =
    Return
      {| chartData := JArr [];
         analysis :=
           {| bazi := JArr [];
              summary := JStr (js "无摘要");
              summaryScore := JNum (Number_ofZ 5);
              personality := JStr (js "无性格分析");
              personalityScore := JNum (Number_ofZ 5);
              industry := JStr (js "无");
              industryScore := JNum (Number_ofZ 5);
              fengShui := JStr (js "建议多亲近自然，保持心境平和。");
              fengShuiScore := JNum (Number_ofZ 5);
              wealth := JStr (js "无");
              wealthScore := JNum (Number_ofZ 5);
              marriage := JStr (js "无");
              marriageScore := JNum (Number_ofZ 5);
              health := JStr (js "无");
              healthScore := JNum (Number_ofZ 5);
              family := JStr (js "无");
              familyScore := JNum (Number_ofZ 5);
              crypto := JStr (js "暂无交易分析");
              cryptoScore := JNum (Number_ofZ 5);
              cryptoYear := JStr (js "待定");
              cryptoStyle := JStr (js "现货定投") |} |}
  /\ Number_ofZ 5 = S754_finite false 5629499534213120 (-50)
  /\ exists r,
       validate (JObj [ (js "chartPoints", JArr []) ]) = Return r
       /\ forall f,
            getField f (analysis r) =
              if isScore f then JNum (Number_ofZ 5)
              else match f with
                   | Fbazi => JArr []
                   | _ => JStr (placeholder f)
                   end.
Proof.
  split; [vm_compute; reflexivity|]. split; [vm_compute; reflexivity|].
  destruct (validate_object [ (js "chartPoints", JArr []) ] [] eq_refl)
    as (r & Hr & _ & Hf).
  exists r. split; [exact Hr|]. intros f.
  rewrite Hf. destruct f; vm_compute; reflexivity.
Qed.

(** C9. A falsy value that is present is replaced like a missing one.  With
    an array in [chartPoints], each field of the result is the value of the
    property when that value is truthy and the default of the field
    otherwise; zero, in a score, and the empty string, in a text, are falsy,
    so the result then holds 5 and the placeholder. *)
Theorem falsy_fields_defaulted (props : list (jsstring * JSValue))
                               (items : list JSValue) :
  lookup (js "chartPoints") props = JArr items ->
  exists r,
    validate (JObj props) = Return r
    /\ (forall f,
          truthy (lookup (fieldName f) props) = false ->
          getField f (analysis r) = fieldDefault f)
    /\ (forall f,
          truthy (lookup (fieldName f) props) = true ->
          getField f (analysis r) = lookup (fieldName f) props)
    /\ (forall f,
          isScore f = true ->
          lookup (fieldName f) props = JNum (Number_ofZ 0) ->
          getField f (analysis r) = JNum (Number_ofZ 5))
    /\ (forall f,
          isScore f = false -> f <> Fbazi ->
          lookup (fieldName f) props = JStr (js "") ->
          getField f (analysis r) = JStr (placeholder f)).
Proof.
  intros H. destruct (validate_object props items H) as (r & Hr & _ & Hf).
  exists r. split; [exact Hr|].
  split; [|split; [|split]]; intros f.
  - intros Ht. rewrite Hf. unfold or_. rewrite Ht. reflexivity.
  - intros Ht. rewrite Hf. unfold or_. rewrite Ht. reflexivity.
  - intros Hs E. rewrite Hf, E. unfold or_. cbn [truthy Number_ofZ].
    destruct f; try discriminate Hs; vm_compute; reflexivity.
  - intros Hs Hb E. rewrite Hf, E.
    destruct f; try discriminate Hs; try (vm_compute; reflexivity).
    contradiction Hb; reflexivity.
Qed.

Lemma falsy_fields_defaulted_witness :
  exists r,
    validate (JObj [ (js "chartPoints", JArr [JNull]);
                     (js "wealthScore", JNum (Number_ofZ 0));
                     (js "wealth", JStr (js "")) ]) = Return r
    /\ wealthScore (analysis r) = JNum (Number_ofZ 5)
    /\ wealth (analysis r) = JStr (js "无").
Proof.
  destruct (falsy_fields_defaulted
              [ (js "chartPoints", JArr [JNull]);
                (js "wealthScore", JNum (Number_ofZ 0));
                (js "wealth", JStr (js "")) ] [JNull] eq_refl)
    as (r & Hr & _ & _ & Hscore & Htext).
  exists r. split; [exact Hr|]. split.
  - exact (Hscore FwealthScore eq_refl eq_refl).
  - apply (Htext Fwealth eq_refl); [discriminate | reflexivity].
Defined.

(** ** Printing and reading integers *)

(** The value of the digit at the head of the text, once it is known. *)
Ltac read_digit :=
  match goal with
  | |- context [digitValue 10 ?c] =>
      let v := eval vm_compute in (digitValue 10 c) in
      change (digitValue 10 c) with v
  end; cbv iota.

Lemma readDigits_pos (d : Decimal.uint) (acc : positive) :
  readDigits 10 (Some (Npos acc)) (digitsOf d)
  = Some (Npos (Pos.of_uint_acc d acc)).
Proof.
  revert acc; induction d; intros acc; cbn [digitsOf readDigits];
    try reflexivity;
    read_digit; cbn [Pos.of_uint_acc]; rewrite <- IHd; do 2 f_equal; lia.
Qed.

Lemma readDigits_zero (d : Decimal.uint) :
  readDigits 10 (Some 0) (digitsOf d) = Some (Pos.of_uint d).
Proof.
  induction d; cbn [digitsOf readDigits Pos.of_uint]; try reflexivity;
    read_digit;
    [ exact IHd | rewrite <- readDigits_pos; do 2 f_equal .. ].
Qed.

Lemma readDigits_digits (d : Decimal.uint) :
  d <> Decimal.Nil ->
  readDigits 10 None (digitsOf d) = Some (Pos.of_uint d).
Proof.
  destruct d; [contradiction | ..]; intros _;
    cbn [digitsOf readDigits Pos.of_uint];
    read_digit;
    [ apply readDigits_zero | rewrite <- readDigits_pos; do 2 f_equal .. ].
Qed.

Lemma parseRadix_digits (d : Decimal.uint) :
  parseRadix (digitsOf d) = (10, digitsOf d).
Proof.
  destruct d as [|d| | | | | | | | |]; try reflexivity.
  destruct d; reflexivity.
Qed.

Lemma parseSign_digits (d : Decimal.uint) :
  parseSign (trimStart (digitsOf d)) = (1%Z, digitsOf d).
Proof. destruct d; reflexivity. Qed.

Lemma to_uint_not_Nil (p : positive) : Pos.to_uint p <> Decimal.Nil.
Proof.
  intros E. pose proof (Unsigned.of_to p) as H.
  rewrite E in H. discriminate H.
Qed.

(** The text printed for an integer reads back as that integer. *)
Lemma parseInt_Number_toString (z : Z) :
  parseInt (Number_toString z) = Some z.
Proof.
  unfold Number_toString. destruct z as [|p|p]; [reflexivity | |];
    cbn [Z.to_int]; unfold parseInt.
  - rewrite parseSign_digits. cbv beta iota.
    rewrite parseRadix_digits. cbv beta iota.
    rewrite (readDigits_digits _ (to_uint_not_Nil p)), Unsigned.of_to.
    reflexivity.
  - change (parseSign (trimStart (0x2D :: digitsOf (Pos.to_uint p))))
      with ((-1)%Z, digitsOf (Pos.to_uint p)). cbv beta iota.
    rewrite parseRadix_digits. cbv beta iota.
    rewrite (readDigits_digits _ (to_uint_not_Nil p)), Unsigned.of_to.
    reflexivity.
Qed.

(** ** The age bands in the prompt *)

Lemma startsWith_app (t y : jsstring) : startsWith t (t ++ y) = true.
Proof.
  induction t as [|c t IH]; [reflexivity|].
  cbn [app startsWith]. rewrite N.eqb_refl. exact IH.
Qed.

Lemma contains_here (s t : jsstring) :
  startsWith t s = true -> contains s t = true.
Proof. intros H. destruct s; cbn [contains]; rewrite H; reflexivity. Qed.

Lemma contains_skip (x s t : jsstring) :
  contains s t = true -> contains (x ++ s) t = true.
Proof.
  intros H. induction x as [|c x IH]; [exact H|].
  cbn [app contains]. rewrite IH. apply orb_true_r.
Qed.

Lemma contains_middle (x t y : jsstring) : contains (x ++ t ++ y) t = true.
Proof. apply contains_skip, contains_here, startsWith_app. Qed.

Lemma joinLines_cons (l : jsstring) (r : list jsstring) :
  r <> [] -> joinLines (l :: r) = l ++ NL ++ joinLines r.
Proof. destruct r; [contradiction | reflexivity]. Qed.

Lemma joinLines_line (a b : list jsstring) (l : jsstring) :
  exists x y, joinLines (a ++ l :: b) = x ++ l ++ y.
Proof.
  induction a as [|l0 a (x & y & IH)].
  - destruct b as [|l1 b].
    + exists [], []. cbn [app joinLines]. symmetry. apply app_nil_r.
    + exists [], (NL ++ joinLines (l1 :: b)). reflexivity.
  - exists (l0 ++ NL ++ x), y.
    change ((l0 :: a) ++ l :: b) with (l0 :: (a ++ l :: b)).
    rewrite joinLines_cons by (destruct a; discriminate).
    rewrite IH, <- !app_assoc. reflexivity.
Qed.

Lemma joinLines_contains (ls : list jsstring) (l p t q : jsstring) :
  In l ls -> l = p ++ t ++ q -> contains (joinLines ls) t = true.
Proof.
  intros Hin ->. apply in_split in Hin. destruct Hin as (a & b & ->).
  destruct (joinLines_line a b (p ++ t ++ q)) as (x & y & ->).
  replace (x ++ (p ++ t ++ q) ++ y) with ((x ++ p) ++ t ++ (q ++ y))
    by (rewrite <- !app_assoc; reflexivity).
  apply contains_middle.
Qed.

Lemma bandLines_texts (s : Z) (fd : jsstring) :
  bandLines s fd =
    [ js "       - " ++ preCycleText s;
      js "       - " ++ bandText s 1 ++ js ": " ++ fd ++ js "]";
      js "       - " ++ bandText s 2 ++ js "]";
      js "       - " ++ bandText s 3 ++ js "]";
      js "       - " ++ andSoOn ].
Proof.
  unfold bandLines, bandText, preCycleText, andSoOn.
  replace (s + 10 * (1 - 1))%Z with s by lia.
  replace (s + 10 * (2 - 1))%Z with (s + 10)%Z by lia.
  replace (s + 10 * (3 - 1))%Z with (s + 20)%Z by lia.
  replace (s + 10 + 9)%Z with (s + 19)%Z by lia.
  replace (s + 20 + 9)%Z with (s + 29)%Z by lia.
  generalize (Number_toString (s - 1)) (Number_toString s)
    (Number_toString (s + 9)) (Number_toString (s + 10))
    (Number_toString (s + 19)) (Number_toString (s + 20))
    (Number_toString (s + 29)).
  intros. rewrite <- !app_assoc. vm_compute. reflexivity.
Qed.

Lemma startAgeInt_parsed (input : UserInput) (s : Z) :
  parseInt (startAge input) = Some s -> s <> 0%Z -> startAgeInt input = s.
Proof.
  unfold startAgeInt. intros -> Hs.
  destruct (Z.eqb_spec s 0); [contradiction | reflexivity].
Qed.

Lemma userPrompt_band (input : UserInput) (l p t q : jsstring) :
  In l (bandLines (startAgeInt input) (firstDaYun input)) ->
  l = p ++ t ++ q ->
  contains (userPrompt input) t = true.
Proof.
  intros Hin E. unfold userPrompt.
  apply (joinLines_contains _ l p t q); [|exact E].
  apply in_or_app. right. apply in_or_app. left. exact Hin.
Qed.

(** C8, as the prompt has it.  The prompt carried by the request spells out
    band boundaries as integers computed from the start age [s] (a non-zero
    safe integer, with [s + 29] safe as well): the band before the first
    decade runs from 1 to [s - 1], and the decade band number [k], for [k]
    from 1 to 3, from [s + 10 * (k - 1)] to [s + 10 * (k - 1) + 9].  These
    four lines and the line that tells to go on in the same way up to the age
    of 100 are all there is between the heading of step 3 and the rest of
    the prompt.  The integers are written in decimal: read back, the text of
    each gives the integer again. *)
Theorem bands_in_request (sys : jsstring) (input : UserInput) (s : Z) :
  parseInt (startAge input) = Some s -> s <> 0%Z ->
  safeInteger (s - 1) = true -> safeInteger (s + 29) = true ->
  messageContent 1 (chatRequest sys input) = JStr (userPrompt input)
  /\ contains (userPrompt input) (preCycleText s) = true
  /\ (forall k, (1 <= k <= 3)%Z ->
        contains (userPrompt input) (bandText s k) = true)
  /\ contains (userPrompt input) andSoOn = true
  /\ userPrompt input =
       joinLines
         (promptHead input
          ++ [ js "       - " ++ preCycleText s;
               js "       - " ++ bandText s 1 ++ js ": " ++ firstDaYun input
                 ++ js "]";
               js "       - " ++ bandText s 2 ++ js "]";
               js "       - " ++ bandText s 3 ++ js "]";
               js "       - " ++ andSoOn ]
          ++ promptTail)
  /\ (forall z, parseInt (Number_toString z) = Some z).
Proof.
  intros Hp Hs _ _. pose proof (startAgeInt_parsed input s Hp Hs) as E.
  assert (Hband : forall l p t q,
            In l (bandLines s (firstDaYun input)) -> l = p ++ t ++ q ->
            contains (userPrompt input) t = true).
  { rewrite <- E. apply userPrompt_band. }
  rewrite bandLines_texts in Hband.
  split; [reflexivity|]. split; [|split; [|split; [|split]]];
    [ | | | | exact parseInt_Number_toString ].
  - eapply (Hband _ (js "       - ") _ []); [left; reflexivity|].
    rewrite app_nil_r. reflexivity.
  - intros k Hk.
    assert (Hc : k = 1%Z \/ k = 2%Z \/ k = 3%Z) by lia.
    destruct Hc as [-> | [-> | ->]].
    + eapply (Hband _ (js "       - ") _ (js ": " ++ firstDaYun input ++ js "]"));
        [right; left; reflexivity | reflexivity].
    + eapply (Hband _ (js "       - ") _ (js "]"));
        [right; right; left; reflexivity | reflexivity].
    + eapply (Hband _ (js "       - ") _ (js "]"));
        [do 3 right; left; reflexivity | reflexivity].
  - eapply (Hband _ (js "       - ") _ []); [do 4 right; left; reflexivity|].
    rewrite app_nil_r. reflexivity.
  - unfold userPrompt. rewrite E, bandLines_texts. reflexivity.
Qed.

Lemma bands_in_request_witness :
  contains (userPrompt sampleInput) (js "Age 1 到 2: daYun = ") = true
  /\ contains (userPrompt sampleInput) (js "Age 13 到 22: daYun = [第2步大运")
     = true.
Proof.
  destruct (bands_in_request (js "") sampleInput 3 eq_refl
              ltac:(discriminate) eq_refl eq_refl) as (_ & _ & H & _).
  split; [vm_compute; reflexivity|].
  exact (H 2%Z ltac:(lia)).
Defined.

(** The claim C8 as worded, for every [k], fails at [k = 4]: for the start
    age 3 the fourth decade band would run from 33 to 42, and the prompt
    holds neither this band nor either of the two numbers. *)
Lemma fourth_band_not_written :
  parseInt (startAge sampleInput) = Some 3%Z
  /\ messageContent 1 (chatRequest (js "") sampleInput)
     = JStr (userPrompt sampleInput)
  /\ bandText 3 4 = js "Age 33 到 42: daYun = [第4步大运"
  /\ contains (userPrompt sampleInput) (bandText 3 4) = false
  /\ contains (userPrompt sampleInput) (js "33") = false
  /\ contains (userPrompt sampleInput) (js "42") = false.
Proof. repeat split; vm_compute; reflexivity. Qed.

Example parseInt_unusable :
  parseInt (js "") = None /\ parseInt (js "abc") = None
  /\ parseInt (js "0") = Some 0%Z /\ parseInt (js "-0") = Some 0%Z
  /\ parseInt (js " 0.9") = Some 0%Z.
Proof. repeat split; vm_compute; reflexivity. Qed.

Example parseInt_usable :
  parseInt (js "3") = Some 3%Z /\ parseInt (js " 12 ") = Some 12%Z
  /\ parseInt (js "0x1F") = Some 31%Z /\ parseInt (js "-7") = Some (-7)%Z
  /\ parseInt (js "25px") = Some 25%Z.
Proof. repeat split; vm_compute; reflexivity. Qed.

(** C10. When the start age does not parse (NaN) or parses to zero, the value
    used is 1 and nothing is thrown: the bands of the prompt are those of the
    start age 1, that is 1 to 0, 1 to 10, 11 to 20 and 21 to 30, and, the
    settings being in order, the request that carries this prompt is handed
    to [fetch]. *)
Theorem startAge_fallback (input : UserInput) :
  parseInt (startAge input) = None \/ parseInt (startAge input) = Some 0%Z ->
  startAgeInt input = 1%Z
  /\ userPrompt input =
       joinLines (promptHead input
                  ++ bandLines 1 (firstDaYun input) ++ promptTail)
  /\ bandLines (startAgeInt input) (firstDaYun input) =
       bandLines (startAgeInt (withStartAge (js "1") input)) (firstDaYun input)
  /\ bandLines (startAgeInt input) (firstDaYun input) =
       [ js "       - Age 1 到 0: daYun = " ++ dquote ++ js "童限" ++ dquote;
         js "       - Age 1 到 10: daYun = [第1步大运: "
           ++ firstDaYun input ++ js "]";
         js "       - Age 11 到 20: daYun = [第2步大运]";
         js "       - Age 21 到 30: daYun = [第3步大运]";
         js "       - ...以此类推直到 100 岁。" ]
  /\ forall fetch JSON_parse sys w,
       configOk input = true ->
       sent (snd (generateLifeAnalysis fetch JSON_parse sys input w))
       = sent w ++ [chatRequest sys input]
       /\ messageContent 1 (chatRequest sys input) = JStr (userPrompt input).
Proof.
  intros H.
  assert (E : startAgeInt input = 1%Z).
  { unfold startAgeInt. destruct H as [-> | ->]; reflexivity. }
  split; [exact E|]. split; [|split; [|split]].
  - unfold userPrompt. rewrite E. reflexivity.
  - rewrite E. reflexivity.
  - rewrite E. generalize (firstDaYun input). intros fd.
    unfold bandLines. vm_compute. reflexivity.
  - intros fetch JSON_parse sys w Hok. split; [|reflexivity].
    apply run_sends. exact Hok.
Qed.

Lemma startAge_fallback_witness :
  startAgeInt (withStartAge (js "abc") sampleInput) = 1%Z
  /\ sent (snd (generateLifeAnalysis sampleFetch sampleParse (js "")
                  (withStartAge (js "abc") sampleInput) emptyWorld))
     = [chatRequest (js "") (withStartAge (js "abc") sampleInput)].
Proof.
  destruct (startAge_fallback (withStartAge (js "abc") sampleInput)
              (or_introl eq_refl)) as (E & _ & _ & _ & H).
  split; [exact E|].
  exact (proj1 (H sampleFetch sampleParse (js "") emptyWorld eq_refl)).
Defined.

(** * Further properties of the service *)

(** ** The outcome of a call *)

Create HintDb pure.

Lemma pure_ret {A} (a : A) : pureAsync (ret a).
Proof. exists (Return a). reflexivity. Qed.

Lemma pure_throw {A} (e : Exn) : pureAsync (@throw A e).
Proof. exists (Throw e). reflexivity. Qed.

Lemma pure_lift {A} (o : Outcome A) : pureAsync (lift o).
Proof. exists o. reflexivity. Qed.

Lemma pure_bind {A B} (m : Async A) (k : A -> Async B) :
  pureAsync m -> (forall a, pureAsync (k a)) -> pureAsync (bind m k).
Proof.
  intros [o Hm] Hk. destruct o as [a|e].
  - destruct (Hk a) as [o' Ha]. exists o'. intros w.
    unfold bind. rewrite Hm. apply Ha.
  - exists (Throw e). intros w. unfold bind. rewrite Hm. reflexivity.
Qed.

Lemma pure_if {A} (b : bool) (m1 m2 : Async A) :
  pureAsync m1 -> pureAsync m2 -> pureAsync (if b then m1 else m2).
Proof. destruct b; auto. Qed.

#[local] Hint Resolve pure_ret pure_throw pure_lift pure_bind pure_if : pure.

Section Outcomes.

Variable fetch : Request -> FetchResult.
Variable JSON_parse : JSValue -> option JSValue.
Variable BAZI_SYSTEM_INSTRUCTION : jsstring.

Local Abbreviation run :=
  (generateLifeAnalysis fetch JSON_parse BAZI_SYSTEM_INSTRUCTION).
Local Abbreviation request := (chatRequest BAZI_SYSTEM_INSTRUCTION).
Local Abbreviation reading := (readResponse JSON_parse).

Lemma readResponse_pure (r : Response) : pureAsync (reading r).
Proof. unfold readResponse. auto 10 with pure. Qed.

Lemma readResponse_world (r : Response) (w : World) :
  reading r w = (fst (reading r emptyWorld), w).
Proof.
  destruct (readResponse_pure r) as [o H]. rewrite !H. reflexivity.
Qed.

(** With the settings in order, a call is one exchange with the endpoint:
    the request is handed to [fetch], the outcome is the rejection of
    [fetch] or what reading the response gives, and an error is written to
    the console before it is thrown again. *)
Lemma run_exchange (input : UserInput) (w : World) :
  configOk input = true ->
  run input w =
    let o := match fetch (request input) with
             | Rejected e => Throw e
             | Responded r => fst (reading r emptyWorld)
             end in
    (o, {| sent := sent w ++ [request input];
           console := console w ++ logged o |}).
Proof.
  unfold configOk. rewrite !andb_true_iff, !negb_true_iff.
  intros [[H1 H2] H3].
  unfold generateLifeAnalysis. rewrite H1, H2, H3.
  unfold tryCatch, bind at 1, await_fetch. cbv zeta.
  destruct (fetch (request input)) as [e|r].
  - reflexivity.
  - rewrite readResponse_world.
    destruct (fst (reading r emptyWorld)) as [a|e].
    + cbn [logged]. rewrite app_nil_r. destruct w; reflexivity.
    + reflexivity.
Qed.

(** X1. A call hands at most one request to [fetch]: exactly one when the
    three checks are passed, whatever the endpoint answers, and none when one
    of them fails.  Nothing is tried again. *)
Theorem one_request_at_most (input : UserInput) (w : World) :
  sent (snd (run input w)) =
    sent w ++ (if configOk input then [request input] else []).
Proof.
  destruct (configOk input) eqn:Hok.
  - rewrite (run_exchange input w Hok). reflexivity.
  - destruct (run_rejects fetch JSON_parse BAZI_SYSTEM_INSTRUCTION input w Hok)
      as (msg & _ & E).
    rewrite E. symmetry. apply app_nil_r.
Qed.

(** X2. An error met once the checks are passed is written to the console
    once and thrown again as it is; an error of the checks is not written,
    and neither is anything when the call returns. *)
Theorem errors_logged_once (input : UserInput) (w : World) :
  console (snd (run input w)) =
    console w
    ++ (if configOk input then logged (fst (run input w)) else []).
Proof.
  destruct (configOk input) eqn:Hok.
  - rewrite (run_exchange input w Hok). reflexivity.
  - destruct (run_rejects fetch JSON_parse BAZI_SYSTEM_INSTRUCTION input w Hok)
      as (msg & _ & E).
    rewrite E. symmetry. apply app_nil_r.
Qed.

(** X3. When the endpoint answers with a status that is not a success, the
    call throws an error whose message is made of the status code and of the
    text of the body; the body is not read as JSON. *)
Theorem transport_error (input : UserInput) (w : World) (r : Response) :
  configOk input = true ->
  fetch (request input) = Responded r ->
  ok r = false ->
  run input w =
    let e := Error (js "API 请求失败: "
                    ++ Number_toString (Z.of_N (status r))
                    ++ js " - " ++ text r) in
    (Throw e, {| sent := sent w ++ [request input];
                 console := console w ++ [e] |}).
Proof.
  intros Hok Hf Hr. rewrite (run_exchange input w Hok), Hf.
  unfold readResponse. rewrite Hr. reflexivity.
Qed.

(** X4. When [fetch] itself fails, its error is the error of the call. *)
Theorem fetch_rejection (input : UserInput) (w : World) (e : Exn) :
  configOk input = true ->
  fetch (request input) = Rejected e ->
  run input w =
    (Throw e, {| sent := sent w ++ [request input];
                 console := console w ++ [e] |}).
Proof.
  intros Hok Hf. rewrite (run_exchange input w Hok), Hf. reflexivity.
Qed.

(** X5. A successful answer in which [choices[0].message.content] is missing
    or falsy makes the call throw the error that says the model returned
    nothing.  This is so for a body without [choices], with no choice, with
    a choice without message, with a message without content and with an
    empty content. *)
Theorem empty_content (input : UserInput) (w : World) (r : Response)
                      (j : JSValue) :
  configOk input = true ->
  fetch (request input) = Responded r ->
  ok r = true -> json r = Some j -> nullish j = false ->
  truthy (contentOf j) = false ->
  run input w =
    (Throw (Error noContent),
     {| sent := sent w ++ [request input];
        console := console w ++ [Error noContent] |})
  /\ truthy (contentOf (JObj [])) = false
  /\ truthy (contentOf (JObj [ (js "choices", JArr []) ])) = false
  /\ truthy (contentOf (JObj [ (js "choices", JArr [ JObj [] ]) ])) = false
  /\ truthy (contentOf
               (JObj [ (js "choices",
                        JArr [ JObj [ (js "message", JObj []) ] ]) ]))
     = false
  /\ truthy (contentOf
               (JObj [ (js "choices",
                        JArr [ JObj [ (js "message",
                                       JObj [ (js "content",
                                               JStr (js "")) ]) ] ]) ]))
     = false.
Proof.
  intros Hok Hf Hr Hj Hn Hc. split; [|repeat split; vm_compute; reflexivity].
  rewrite (run_exchange input w Hok), Hf.
  unfold readResponse. rewrite Hr, Hj. cbn [negb].
  unfold bind, lift, getProp. rewrite Hn.
  fold (contentOf j). rewrite Hc. reflexivity.
Qed.

(** X6. A successful answer whose body is not JSON makes the call throw a
    [SyntaxError], and one whose body is the value [null] a [TypeError]. *)
Theorem unreadable_body (input : UserInput) (w : World) (r : Response) :
  configOk input = true ->
  fetch (request input) = Responded r ->
  ok r = true ->
  json r = None \/ json r = Some JNull ->
  run input w =
    let e := match json r with None => SyntaxError | Some _ => TypeError end in
    (Throw e, {| sent := sent w ++ [request input];
                 console := console w ++ [e] |}).
Proof.
  intros Hok Hf Hr Hj. rewrite (run_exchange input w Hok), Hf.
  unfold readResponse. rewrite Hr.
  destruct Hj as [-> | ->]; reflexivity.
Qed.

(** X7. A successful answer with a content hands this content to
    [JSON.parse], and the outcome of the call is the outcome of the check of
    the parsed value, or a [SyntaxError] when the content does not parse:
    the result depends on the input through the request only. *)
Theorem answer_checked (input : UserInput) (w : World) (r : Response)
                       (j : JSValue) :
  configOk input = true ->
  fetch (request input) = Responded r ->
  ok r = true -> json r = Some j -> nullish j = false ->
  truthy (contentOf j) = true ->
  run input w =
    let o := match JSON_parse (contentOf j) with
             | Some data => validate data
             | None => Throw SyntaxError
             end in
    (o, {| sent := sent w ++ [request input];
           console := console w ++ logged o |}).
Proof.
  intros Hok Hf Hr Hj Hn Hc.
  rewrite (run_exchange input w Hok), Hf.
  assert (E : fst (reading r emptyWorld) =
              match JSON_parse (contentOf j) with
              | Some data => validate data
              | None => Throw SyntaxError
              end).
  { unfold readResponse. rewrite Hr, Hj. cbn [negb].
    unfold bind, lift, getProp. rewrite Hn.
    fold (contentOf j). rewrite Hc. cbn [negb].
    destruct (JSON_parse (contentOf j)) as [data|]; [|reflexivity].
    destruct (validate data); reflexivity. }
  cbv zeta. rewrite E. reflexivity.
Qed.

End Outcomes.

Lemma transport_error_witness :
  generateLifeAnalysis refusingFetch sampleParse (js "") sampleInput emptyWorld
  = (Throw (Error (js "API 请求失败: 401 - Unauthorized")),
     {| sent := [chatRequest (js "") sampleInput];
        console := [Error (js "API 请求失败: 401 - Unauthorized")] |}).
Proof.
  exact (transport_error refusingFetch sampleParse (js "") sampleInput
           emptyWorld _ eq_refl eq_refl eq_refl).
Defined.

Lemma fetch_rejection_witness :
  generateLifeAnalysis failingFetch sampleParse (js "") sampleInput emptyWorld
  = (Throw TypeError,
     {| sent := [chatRequest (js "") sampleInput];
        console := [TypeError] |}).
Proof.
  exact (fetch_rejection failingFetch sampleParse (js "") sampleInput
           emptyWorld TypeError eq_refl eq_refl).
Defined.

Lemma empty_content_witness :
  generateLifeAnalysis emptyChoicesFetch sampleParse (js "") sampleInput
    emptyWorld
  = (Throw (Error noContent),
     {| sent := [chatRequest (js "") sampleInput];
        console := [Error noContent] |}).
Proof.
  exact (proj1 (empty_content emptyChoicesFetch sampleParse (js "")
                  sampleInput emptyWorld _ _
                  eq_refl eq_refl eq_refl eq_refl eq_refl eq_refl)).
Defined.

Lemma unreadable_body_witness :
  generateLifeAnalysis pageFetch sampleParse (js "") sampleInput emptyWorld
  = (Throw SyntaxError,
     {| sent := [chatRequest (js "") sampleInput];
        console := [SyntaxError] |})
  /\ generateLifeAnalysis nullFetch sampleParse (js "") sampleInput emptyWorld
     = (Throw TypeError,
        {| sent := [chatRequest (js "") sampleInput];
           console := [TypeError] |}).
Proof.
  split.
  - exact (unreadable_body pageFetch sampleParse (js "") sampleInput
             emptyWorld _ eq_refl eq_refl eq_refl (or_introl eq_refl)).
  - exact (unreadable_body nullFetch sampleParse (js "") sampleInput
             emptyWorld _ eq_refl eq_refl eq_refl (or_intror eq_refl)).
Defined.

Lemma answer_checked_witness :
  generateLifeAnalysis sampleFetch sampleParse (js "") sampleInput emptyWorld
  = (validate sampleReply,
     {| sent := [chatRequest (js "") sampleInput]; console := [] |}).
Proof.
  exact (answer_checked sampleFetch sampleParse (js "") sampleInput
           emptyWorld _ _ eq_refl eq_refl eq_refl eq_refl eq_refl eq_refl).
Defined.

(** ** The settings in the request *)

Lemma dropSlashes_head (s : jsstring) :
  startsWith [0x2F] (dropSlashes s) = false.
Proof.
  induction s as [|c s IH]; [reflexivity|]. cbn [dropSlashes].
  destruct (c =? 0x2F) eqn:E; [exact IH|].
  cbn [startsWith]. rewrite N.eqb_sym, E. reflexivity.
Qed.

Lemma stripTrailingSlashes_end (s : jsstring) :
  endsWith (stripTrailingSlashes s) [0x2F] = false.
Proof.
  unfold endsWith, stripTrailingSlashes. rewrite rev_involutive.
  apply dropSlashes_head.
Qed.

Lemma startsWith_app_same (a b c : jsstring) :
  startsWith (a ++ b) (a ++ c) = startsWith b c.
Proof.
  induction a as [|x a IH]; [reflexivity|].
  cbn [app startsWith]. rewrite N.eqb_refl. exact IH.
Qed.

Lemma cleanBaseUrl_end (input : UserInput) :
  endsWith (cleanBaseUrl input) [0x2F] = false.
Proof.
  unfold cleanBaseUrl. destruct (apiBaseUrl input) as [u|]; [|reflexivity].
  destruct (falsy u); [reflexivity | apply stripTrailingSlashes_end].
Qed.

(** X8. The base URL used never ends with a slash, however many the setting
    ends with, so that the address of a request never holds two slashes
    before [chat/completions]. *)
Theorem url_single_slash (sys : jsstring) (input : UserInput) :
  endsWith (cleanBaseUrl input) (js "/") = false
  /\ url (chatRequest sys input) = cleanBaseUrl input ++ js "/chat/completions"
  /\ endsWith (url (chatRequest sys input)) (js "//chat/completions") = false.
Proof.
  split; [apply cleanBaseUrl_end|]. split; [reflexivity|].
  cbn [url chatRequest]. unfold endsWith. rewrite rev_app_distr.
  replace (rev (js "//chat/completions"))
    with (rev (js "/chat/completions") ++ [0x2F])
    by (vm_compute; reflexivity).
  rewrite startsWith_app_same. apply cleanBaseUrl_end.
Qed.

Lemma dropSlashes_all (s : jsstring) :
  Forall (fun c => c = 0x2F) s -> dropSlashes s = [].
Proof.
  induction 1 as [|c s Hc _ IH]; [reflexivity|].
  cbn [dropSlashes]. rewrite Hc. exact IH.
Qed.

Lemma cleanApiKey_trimmed (input : UserInput) :
  cleanApiKey input =
    match apiKey input with Some k => trim k | None => [] end.
Proof.
  unfold cleanApiKey. destruct (apiKey input) as [[|c k]|]; reflexivity.
Qed.

Lemma cleanBaseUrl_trimmed (input : UserInput) :
  cleanBaseUrl input =
    match apiBaseUrl input with
    | Some u => stripTrailingSlashes (trim u)
    | None => []
    end.
Proof.
  unfold cleanBaseUrl. destruct (apiBaseUrl input) as [[|c u]|]; reflexivity.
Qed.

Lemma targetModel_trimmed (input : UserInput) :
  targetModel input =
    match modelName input with
    | Some m => if falsy (trim m) then defaultModel else trim m
    | None => defaultModel
    end.
Proof.
  unfold targetModel. destruct (modelName input) as [[|c m]|].
  - vm_compute. reflexivity.
  - cbn [falsy negb andb]. destruct (falsy (trim (c :: m))); reflexivity.
  - reflexivity.
Qed.

Section Settings.

Variable fetch : Request -> FetchResult.
Variable JSON_parse : JSValue -> option JSValue.
Variable BAZI_SYSTEM_INSTRUCTION : jsstring.

Local Abbreviation run :=
  (generateLifeAnalysis fetch JSON_parse BAZI_SYSTEM_INSTRUCTION).
Local Abbreviation request := (chatRequest BAZI_SYSTEM_INSTRUCTION).

(** X9. A base URL that is made of slashes only, once trimmed, is refused
    like a missing one: with a credential that passes its checks the call
    throws the error about the base URL, and nothing is sent. *)
Theorem slash_only_url_rejected (input : UserInput) (w : World)
                                (u : jsstring) :
  apiBaseUrl input = Some u ->
  Forall (fun c => c = 0x2F) (trim u) ->
  falsy (cleanApiKey input) = false ->
  hasNonAscii (cleanApiKey input) = false ->
  run input w = (Throw (Error missingBaseUrl), w).
Proof.
  intros Hu Hs Hk Ha.
  assert (E : cleanBaseUrl input = []).
  { rewrite cleanBaseUrl_trimmed, Hu. unfold stripTrailingSlashes.
    rewrite dropSlashes_all by (apply Forall_rev; exact Hs). reflexivity. }
  unfold generateLifeAnalysis. rewrite Hk, Ha, E. reflexivity.
Qed.

(** X10. White space around the credential, the base URL and the model name
    is of no consequence: the call on the input with the three settings
    padded is the call on the input itself, request and outcome alike. *)
Theorem settings_padding_ignored (ws1 ws2 : jsstring) (input : UserInput)
                                 (w : World) :
  allWhiteSpace ws1 -> allWhiteSpace ws2 ->
  chatRequest BAZI_SYSTEM_INSTRUCTION (padSettings ws1 ws2 input)
  = request input
  /\ run (padSettings ws1 ws2 input) w = run input w.
Proof.
  intros H1 H2.
  assert (Ek : cleanApiKey (padSettings ws1 ws2 input) = cleanApiKey input).
  { rewrite !cleanApiKey_trimmed. cbn [padSettings apiKey].
    destruct (apiKey input) as [k|]; [|reflexivity].
    cbn [option_map]. apply trim_padding; assumption. }
  assert (Eu : cleanBaseUrl (padSettings ws1 ws2 input) = cleanBaseUrl input).
  { rewrite !cleanBaseUrl_trimmed. cbn [padSettings apiBaseUrl].
    destruct (apiBaseUrl input) as [u|]; [|reflexivity].
    cbn [option_map]. rewrite trim_padding by assumption. reflexivity. }
  assert (Em : targetModel (padSettings ws1 ws2 input) = targetModel input).
  { rewrite !targetModel_trimmed. cbn [padSettings modelName].
    destruct (modelName input) as [m|]; [|reflexivity].
    cbn [option_map]. rewrite trim_padding by assumption. reflexivity. }
  assert (Er : chatRequest BAZI_SYSTEM_INSTRUCTION (padSettings ws1 ws2 input)
               = request input).
  { unfold chatRequest. rewrite Ek, Eu, Em. reflexivity. }
  split; [exact Er|].
  unfold generateLifeAnalysis. rewrite Ek, Eu, Er. reflexivity.
Qed.

End Settings.

Lemma slash_only_url_rejected_witness :
  generateLifeAnalysis sampleFetch sampleParse (js "")
    (withApiBaseUrl (Some (js " /// ")) sampleInput) emptyWorld
  = (Throw (Error missingBaseUrl), emptyWorld).
Proof.
  apply (slash_only_url_rejected sampleFetch sampleParse (js "")
           (withApiBaseUrl (Some (js " /// ")) sampleInput) emptyWorld
           (js " /// ") eq_refl);
    [vm_compute; repeat constructor | reflexivity | reflexivity].
Defined.

Lemma settings_padding_ignored_witness :
  chatRequest (js "") (padSettings (js " ") [0x0A] sampleInput)
  = chatRequest (js "") sampleInput.
Proof.
  refine (proj1 (settings_padding_ignored sampleFetch sampleParse (js "")
                   (js " ") [0x0A] sampleInput emptyWorld _ _));
    repeat constructor.
Defined.

Lemma trim_visibleEnds (s : jsstring) :
  visibleEnds (trim s) = negb (falsy (trim s)).
Proof.
  unfold trim. pose proof (trimStart_visible s) as Hc.
  destruct (trimStart s) as [|c r]; [reflexivity|].
  assert (E : rev (trimEnd (c :: r)) = trimStart (rev (c :: r)))
    by (unfold trimEnd; apply rev_involutive).
  pose proof (trimStart_visible (rev (c :: r))) as Hd.
  rewrite trimEnd_cons in E |- * by exact Hc.
  unfold visibleEnds. rewrite E.
  destruct (trimStart (rev (c :: r))) as [|d y].
  - exfalso. cbn [rev] in E. destruct (rev (trimEnd r)); discriminate E.
  - rewrite Hc, Hd. reflexivity.
Qed.

(** X11. What a request carries of the settings is clean: the credential is
    not empty, holds ASCII characters only and neither begins nor ends with
    white space or a line break; the model is never empty, it is the model
    name trimmed or, when that is blank or missing, the default model. *)
Theorem request_settings_clean (sys : jsstring) (input : UserInput) :
  configOk input = true ->
  headers (chatRequest sys input) =
    [ (js "Content-Type", js "application/json");
      (js "Authorization", js "Bearer " ++ cleanApiKey input) ]
  /\ visibleEnds (cleanApiKey input) = true
  /\ hasNonAscii (cleanApiKey input) = false
  /\ prop (body (chatRequest sys input)) (js "model")
     = JStr (targetModel input)
  /\ visibleEnds (targetModel input) = true
  /\ targetModel input =
       match modelName input with
       | Some m => if falsy (trim m) then defaultModel else trim m
       | None => defaultModel
       end.
Proof.
  unfold configOk. rewrite !andb_true_iff, !negb_true_iff.
  intros [[Hk Ha] _].
  split; [reflexivity|]. split; [|split; [exact Ha|]].
  - rewrite cleanApiKey_trimmed in Hk |- *.
    destruct (apiKey input) as [k|]; [|discriminate Hk].
    rewrite trim_visibleEnds, Hk. reflexivity.
  - split; [reflexivity|]. split; [|apply targetModel_trimmed].
    rewrite targetModel_trimmed.
    destruct (modelName input) as [m|]; [|vm_compute; reflexivity].
    destruct (falsy (trim m)) eqn:Em; [vm_compute; reflexivity|].
    rewrite trim_visibleEnds, Em. reflexivity.
Qed.

Lemma request_settings_clean_witness :
  visibleEnds (cleanApiKey (padSettings [0x0A] [0x0A] sampleInput)) = true
  /\ targetModel (withModelName (Some (js " ")) sampleInput) = defaultModel.
Proof.
  split.
  - exact (proj1 (proj2 (request_settings_clean (js "")
                           (padSettings [0x0A] [0x0A] sampleInput) eq_refl))).
  - destruct (request_settings_clean (js "")
                (withModelName (Some (js " ")) sampleInput) eq_refl)
      as (_ & _ & _ & _ & _ & E).
    rewrite E. vm_compute. reflexivity.
Defined.

(** ** The start age *)

(** X12. The start age used for the bands is never zero, so that the first
    decade never begins at the age of 0; and for the decimal text of a safe
    integer other than zero it is that integer. *)
Theorem startAgeInt_not_zero (input : UserInput) (z : Z) :
  safeInteger z = true ->
  (startAgeInt input =? 0)%Z = false
  /\ startAgeInt (withStartAge (Number_toString z) input)
     = (if z =? 0 then 1 else z)%Z.
Proof.
  intros _. split.
  - unfold startAgeInt. destruct (parseInt (startAge input)) as [z'|];
      [|reflexivity].
    destruct (z' =? 0)%Z eqn:E; [reflexivity | exact E].
  - unfold startAgeInt. cbn [startAge withStartAge].
    rewrite parseInt_Number_toString. reflexivity.
Qed.

Lemma startAgeInt_not_zero_witness :
  (startAgeInt (withStartAge (js "0") sampleInput) =? 0)%Z = false
  /\ startAgeInt (withStartAge (js "7") sampleInput) = 7%Z.
Proof.
  split.
  - exact (proj1 (startAgeInt_not_zero (withStartAge (js "0") sampleInput)
                    7%Z eq_refl)).
  - exact (proj2 (startAgeInt_not_zero sampleInput 7%Z eq_refl)).
Defined.

(** ** The result of the check *)

Lemma validate_return (data : JSValue) (r : LifeDestinyResult) :
  validate data = Return r ->
  exists props items,
    data = JObj props /\ lookup (js "chartPoints") props = JArr items.
Proof.
  intros H. destruct (prop data (js "chartPoints")) as [| |b|x|s|items|ps] eqn:E;
    try (rewrite validate_not_array in H;
         [discriminate H | intros [items' H']; congruence]).
  apply chartPointsArray_object. exists items. exact E.
Qed.

Lemma fieldDefault_truthy (f : Field) : truthy (fieldDefault f) = true.
Proof. destruct f; vm_compute; reflexivity. Qed.

(** X13. In a result that is returned nothing is missing: the chart data is
    an array and each of the 21 fields of the analysis is truthy, being
    either the truthy value of the reply or a default that is itself
    truthy. *)
Theorem validate_result_filled (data : JSValue) (r : LifeDestinyResult) :
  validate data = Return r ->
  isArray (chartData r) = true
  /\ forall f, truthy (getField f (analysis r)) = true.
Proof.
  intros H. destruct (validate_return data r H) as (props & items & -> & E).
  destruct (validate_object props items E) as (r' & Hr & Hc & Hf).
  assert (r' = r) by congruence. subst r'.
  split; [rewrite Hc; reflexivity|].
  intros f. rewrite Hf. unfold or_.
  destruct (truthy (lookup (fieldName f) props)) eqn:Et;
    [exact Et | apply fieldDefault_truthy].
Qed.

Lemma validate_result_filled_witness :
  forallb (fun f =>
             match validate (JObj [ (js "chartPoints", JArr [JNull]);
                                    (js "health", JNull);
                                    (js "familyScore", JBool false) ]) with
             | Return r => truthy (getField f (analysis r))
             | Throw _ => false
             end)
          [Fhealth; FfamilyScore; Fbazi] = true.
Proof.
  destruct (validate (JObj [ (js "chartPoints", JArr [JNull]);
                             (js "health", JNull);
                             (js "familyScore", JBool false) ]))
    as [r|e] eqn:E; [|vm_compute in E; discriminate E].
  destruct (validate_result_filled _ r E) as [_ H].
  cbn [forallb]. rewrite !H. reflexivity.
Defined.

(** X14. The check reads [chartPoints] and the 21 named properties and
    nothing else: two replies that agree on these give the same outcome, so
    that properties under other names, and the order of the properties, are
    of no consequence. *)
Theorem validate_reads_named_only (props1 props2 : list (jsstring * JSValue)) :
  lookup (js "chartPoints") props1 = lookup (js "chartPoints") props2 ->
  (forall f, lookup (fieldName f) props1 = lookup (fieldName f) props2) ->
  validate (JObj props1) = validate (JObj props2).
Proof.
  intros Hc Hf. unfold validate, getProp. cbn [nullish prop]. rewrite Hc.
  generalize (Hf Fbazi) (Hf Fsummary) (Hf FsummaryScore) (Hf Fpersonality)
    (Hf FpersonalityScore) (Hf Findustry) (Hf FindustryScore) (Hf FfengShui)
    (Hf FfengShuiScore) (Hf Fwealth) (Hf FwealthScore) (Hf Fmarriage)
    (Hf FmarriageScore) (Hf Fhealth) (Hf FhealthScore) (Hf Ffamily)
    (Hf FfamilyScore) (Hf Fcrypto) (Hf FcryptoScore) (Hf FcryptoYear)
    (Hf FcryptoStyle).
  cbn [fieldName]. intros.
  repeat match goal with
         | E : lookup _ props1 = lookup _ props2 |- _ => rewrite E; clear E
         end.
  reflexivity.
Qed.

Lemma validate_reads_named_only_witness :
  validate (JObj [ (js "note", JStr (js "x"));
                   (js "wealth", JStr (js "ok"));
                   (js "chartPoints", JArr []) ])
  = validate (JObj [ (js "chartPoints", JArr []);
                     (js "wealth", JStr (js "ok")) ]).
Proof.
  apply validate_reads_named_only; [vm_compute; reflexivity|].
  intros f; destruct f; vm_compute; reflexivity.
Defined.

(** ** What the prompt says of the subject *)

Lemma userPrompt_head (input : UserInput) (l p t q : jsstring) :
  In l (promptHead input) -> l = p ++ t ++ q ->
  contains (userPrompt input) t = true.
Proof.
  intros Hin E. unfold userPrompt.
  apply (joinLines_contains _ l p t q); [|exact E].
  apply in_or_app. left. exact Hin.
Qed.

(** Closes an equation between two ways of cutting a line, once the parts
    that come from the input are abstracted. *)
Ltac same_text :=
  intros; rewrite <- ?app_assoc, ?app_nil_r; vm_compute; reflexivity.

(** X15. The prompt tells the direction that was resolved, and tells it
    consistently: the line of the sorting direction, the example of the
    second step and the polarity noted beside the year pillar all follow
    [resolveDirection] and [getStemPolarity]; the gender is the one of the
    input; and a subject without a name is announced as not provided. *)
Theorem prompt_states_direction (input : UserInput) :
  contains (userPrompt input)
    (js "**排序方向**：" ++
     match resolveDirection (yearPillar input) (gender input) with
     | FORWARD => js "顺行 (Forward)。"
     | BACKWARD => js "逆行 (Backward)。"
     end) = true
  /\ contains (userPrompt input)
       match resolveDirection (yearPillar input) (gender input) with
       | FORWARD => js "第二步则是【己酉】（顺排）"
       | BACKWARD => js "第二步则是【丁未】（逆排）"
       end = true
  /\ contains (userPrompt input)
       (js "年柱：" ++ yearPillar input ++
        match getStemPolarity (yearPillar input) with
        | YANG => js " (天干属性：阳)"
        | YIN => js " (天干属性：阴)"
        end) = true
  /\ contains (userPrompt input)
       match gender input with
       | MALE => js "性别：男 (乾造)"
       | FEMALE => js "性别：女 (坤造)"
       end = true
  /\ contains (userPrompt input)
       (js "姓名：" ++
        match name input with [] => js "未提供" | _ :: _ => name input end)
     = true.
Proof.
  repeat match goal with |- _ /\ _ => split end.
  - eapply (userPrompt_head input _ (js "    3. ") _ []).
    + unfold promptHead. cbv zeta. do 17 right. left. reflexivity.
    + unfold resolveDirection, daYunDirectionStr.
      destruct (isForward (yearPillar input) (gender input)); same_text.
  - eapply (userPrompt_head input _ (js "       例如：第一步是【戊申】，") _ []).
    + unfold promptHead. cbv zeta. do 24 right. left. reflexivity.
    + unfold resolveDirection, directionExample.
      destruct (isForward (yearPillar input) (gender input)); same_text.
  - eapply (userPrompt_head input _ (js "    ") _ []).
    + unfold promptHead. cbv zeta. do 9 right. left. reflexivity.
    + destruct (getStemPolarity (yearPillar input));
        cbn [Polarity_eqb]; generalize (yearPillar input); same_text.
  - eapply (userPrompt_head input _ (js "    ") _ []).
    + unfold promptHead. cbv zeta. do 4 right. left. reflexivity.
    + unfold genderStr. destruct (gender input); same_text.
  - eapply (userPrompt_head input _ (js "    ") _ []).
    + unfold promptHead. cbv zeta. do 5 right. left. reflexivity.
    + unfold orElse. destruct (name input) as [|c r]; cbn [falsy];
        [|generalize (c :: r)]; same_text.
Qed.

(** * Properties of the form *)

(** X16. The sorting rule shown in the form, once a year pillar is typed, is
    the direction that the service resolves and writes in the prompt; with
    no year pillar the form waits, where the service takes the stem as
    Yang.  The form looks the first character up in the Yin table only: the
    two agree because no stem is in both tables. *)
Theorem direction_preview_agrees (fd : UserInput) :
  daYunDirectionInfo fd =
    if falsy (yearPillar fd) then js "等待输入年柱..."
    else if isForward (yearPillar fd) (gender fd)
         then js "顺行 (阳男/阴女)"
         else js "逆行 (阴男/阳女)".
Proof.
  unfold daYunDirectionInfo.
  destruct (falsy (yearPillar fd)) eqn:Ef; [reflexivity|]. cbv zeta.
  unfold isForward, getStemPolarity. rewrite Ef.
  destruct (includes yinStems (firstChar (yearPillar fd))) eqn:Ei.
  - destruct (includes yangStems (firstChar (yearPillar fd))) eqn:Ey.
    + apply includes_In in Ei. apply includes_In in Ey.
      destruct (stems_disjoint _ Ey Ei).
    + destruct (gender fd); cbn [Polarity_eqb negb]; reflexivity.
  - destruct (includes yangStems (firstChar (yearPillar fd)));
      destruct (gender fd); cbn [Polarity_eqb negb]; reflexivity.
Qed.

Lemma handleSubmit_passed (fd d : UserInput) :
  handleSubmit fd = Return (OnSubmit d) ->
  d = fd
  /\ exists m u k,
       modelName fd = Some m /\ apiBaseUrl fd = Some u /\ apiKey fd = Some k
       /\ falsy (trim m) = false /\ falsy (trim u) = false
       /\ falsy (trim k) = false.
Proof.
  unfold handleSubmit.
  destruct (modelName fd) as [m|]; [|discriminate].
  destruct (apiBaseUrl fd) as [u|]; [|discriminate].
  destruct (apiKey fd) as [k|]; [|discriminate].
  cbv zeta. cbn [errModelName errApiBaseUrl errApiKey].
  destruct (falsy (trim m)) eqn:Em; [discriminate|].
  destruct (falsy (trim u)) eqn:Eu; [discriminate|].
  destruct (falsy (trim k)) eqn:Ek; [discriminate|].
  intros H. injection H as <-. split; [reflexivity|].
  exists m, u, k. repeat split; assumption || reflexivity.
Qed.

Lemma handleSubmit_filled (fd : UserInput) :
  settingsFilled fd = true -> handleSubmit fd = Return (OnSubmit fd).
Proof.
  unfold settingsFilled, blank, handleSubmit.
  destruct (modelName fd) as [m|]; [|discriminate].
  destruct (apiBaseUrl fd) as [u|]; [|rewrite andb_false_r; discriminate].
  destruct (apiKey fd) as [k|]; [|rewrite andb_false_r; discriminate].
  rewrite !andb_true_iff, !negb_true_iff. intros [[-> ->] ->]. reflexivity.
Qed.

(** X17. Submitting hands the data to [onSubmit], unchanged, exactly when
    the three settings are present and none of them is blank once trimmed;
    when one is blank, errors are shown instead, under the blank settings
    and under no other, and [onSubmit] is not called. *)
Theorem handleSubmit_contract (fd : UserInput) (m u k : jsstring) :
  modelName fd = Some m -> apiBaseUrl fd = Some u -> apiKey fd = Some k ->
  handleSubmit fd =
    Return
      (if settingsFilled fd then OnSubmit fd
       else SetFormErrors
              {| errModelName :=
                   if falsy (trim m) then Some (js "请输入模型名称") else None;
                 errApiBaseUrl :=
                   if falsy (trim u) then Some (js "请输入 API Base URL")
                   else None;
                 errApiKey :=
                   if falsy (trim k) then Some (js "请输入 API Key")
                   else None |})
  /\ settingsFilled fd
     = negb (falsy (trim m)) && negb (falsy (trim u)) && negb (falsy (trim k)).
Proof.
  intros Hm Hu Hk. unfold settingsFilled, blank, handleSubmit.
  rewrite Hm, Hu, Hk. split; [|reflexivity].
  cbv zeta. cbn [errModelName errApiBaseUrl errApiKey].
  destruct (falsy (trim m)), (falsy (trim u)), (falsy (trim k)); reflexivity.
Qed.

Lemma handleSubmit_contract_witness :
  handleSubmit (withApiKey (Some (js " ")) sampleInput)
  = Return (SetFormErrors
              {| errModelName := None; errApiBaseUrl := None;
                 errApiKey := Some (js "请输入 API Key") |}).
Proof.
  exact (proj1 (handleSubmit_contract (withApiKey (Some (js " ")) sampleInput)
                  _ _ _ eq_refl eq_refl eq_refl)).
Defined.

Section FormAndService.

Variable fetch : Request -> FetchResult.
Variable JSON_parse : JSValue -> option JSValue.
Variable BAZI_SYSTEM_INSTRUCTION : jsstring.

Local Abbreviation run :=
  (generateLifeAnalysis fetch JSON_parse BAZI_SYSTEM_INSTRUCTION).

(** X18. Data that the form hands on never meets the error of the missing
    credential in the service, and its model name is used trimmed, the
    default model being out of play.  The form does not look for characters
    outside ASCII nor for a URL made of slashes: apart from these two
    errors, which stay possible, the request is sent. *)
Theorem submitted_data_in_service (fd d : UserInput) (w : World) :
  handleSubmit fd = Return (OnSubmit d) ->
  falsy (cleanApiKey d) = false
  /\ (exists m, modelName d = Some m /\ targetModel d = trim m)
  /\ (configOk d = true
      \/ run d w = (Throw (Error badApiKey), w)
      \/ run d w = (Throw (Error missingBaseUrl), w)).
Proof.
  intros H.
  destruct (handleSubmit_passed fd d H)
    as (-> & m & u & k & Hm & Hu & Hk & Em & Eu & Ek).
  assert (Hkey : falsy (cleanApiKey fd) = false)
    by (rewrite cleanApiKey_trimmed, Hk; exact Ek).
  split; [exact Hkey|]. split.
  - exists m. split; [exact Hm|].
    rewrite targetModel_trimmed, Hm, Em. reflexivity.
  - unfold configOk, generateLifeAnalysis. rewrite Hkey.
    destruct (hasNonAscii (cleanApiKey fd)); [right; left; reflexivity|].
    destruct (falsy (cleanBaseUrl fd)); [right; right; reflexivity|].
    left. reflexivity.
Qed.

End FormAndService.

Lemma submitted_data_in_service_witness :
  handleSubmit (withApiBaseUrl (Some (js "/")) sampleInput)
  = Return (OnSubmit (withApiBaseUrl (Some (js "/")) sampleInput))
  /\ falsy (cleanApiKey (withApiBaseUrl (Some (js "/")) sampleInput)) = false
  /\ generateLifeAnalysis sampleFetch sampleParse (js "")
       (withApiBaseUrl (Some (js "/")) sampleInput) emptyWorld
     = (Throw (Error missingBaseUrl), emptyWorld).
Proof.
  assert (H : handleSubmit (withApiBaseUrl (Some (js "/")) sampleInput)
              = Return (OnSubmit (withApiBaseUrl (Some (js "/")) sampleInput)))
    by reflexivity.
  split; [exact H|].
  split.
  - exact (proj1 (submitted_data_in_service sampleFetch sampleParse (js "")
                    _ _ emptyWorld H)).
  - vm_compute. reflexivity.
Defined.

(** ** The errors on screen *)

Lemma apiInput (n : InputName) :
  eqb (inputName n) (js "apiBaseUrl") || eqb (inputName n) (js "apiKey")
  || eqb (inputName n) (js "modelName")
  = match n with
    | In_modelName | In_apiBaseUrl | In_apiKey => true
    | _ => false
    end.
Proof. destruct n; vm_compute; reflexivity. Qed.

Lemma errorsJustified_iff (st : FormState) :
  errorsJustified st = true <->
  shownIfBlank (errModelName (formErrors st)) (modelName (formData st)) = true
  /\ shownIfBlank (errApiBaseUrl (formErrors st)) (apiBaseUrl (formData st))
     = true
  /\ shownIfBlank (errApiKey (formErrors st)) (apiKey (formData st)) = true.
Proof. unfold errorsJustified. rewrite !andb_true_iff. tauto. Qed.

Lemma shownIfBlank_present (err setting : option jsstring) :
  shownIfBlank err setting = true -> exists s, setting = Some s.
Proof. destruct setting as [s|]; [eauto | discriminate]. Qed.

Lemma handleChange_justified (n : InputName) (v : jsstring) (st : FormState) :
  errorsJustified st = true -> errorsJustified (handleChange n v st) = true.
Proof.
  rewrite !errorsJustified_iff. intros (H1 & H2 & H3).
  unfold handleChange. rewrite apiInput.
  destruct n;
    cbn [formData formErrors setField clearError modelName apiBaseUrl apiKey
         errModelName errApiBaseUrl errApiKey shownIfBlank];
    auto.
Qed.

Lemma handleSubmit_justified (st : FormState) :
  errorsJustified st = true ->
  exists st' calls,
    step st Submit = Return (st', calls)
    /\ errorsJustified st' = true
    /\ formData st' = formData st
    /\ forallb settingsFilled calls = true.
Proof.
  intros H. pose proof H as H'. apply errorsJustified_iff in H'.
  destruct H' as (H1 & H2 & H3).
  destruct (shownIfBlank_present _ _ H1) as [m Hm].
  destruct (shownIfBlank_present _ _ H2) as [u Hu].
  destruct (shownIfBlank_present _ _ H3) as [k Hk].
  destruct (handleSubmit_contract (formData st) m u k Hm Hu Hk) as [E F].
  cbn [step]. rewrite E.
  destruct (settingsFilled (formData st)) eqn:Es.
  - exists st, [formData st]. repeat split; try assumption.
    cbn [forallb]. rewrite Es. reflexivity.
  - eexists; exists []. split; [reflexivity|]. split; [|split; reflexivity].
    apply errorsJustified_iff. cbn [formData formErrors errModelName
                                     errApiBaseUrl errApiKey].
    rewrite Hm, Hu, Hk. cbn [shownIfBlank].
    destruct (falsy (trim m)) eqn:Em, (falsy (trim u)) eqn:Eu,
             (falsy (trim k)) eqn:Ek; auto.
Qed.

Lemma step_justified (st : FormState) (ev : Event) :
  errorsJustified st = true ->
  exists st' calls,
    step st ev = Return (st', calls)
    /\ errorsJustified st' = true
    /\ forallb settingsFilled calls = true.
Proof.
  intros H. destruct ev as [n v|g|].
  - exists (handleChange n v st), []. split; [reflexivity|].
    split; [apply handleChange_justified; exact H | reflexivity].
  - exists (pickGender g st), []. split; [reflexivity|].
    split; [exact H | reflexivity].
  - destruct (handleSubmit_justified st H) as (st' & calls & E & J & _ & F).
    exists st', calls. auto.
Qed.

(** X19. Whatever the user types, picks and submits, in whatever order,
    starting from a state where errors are shown under blank settings only
    (the initial state is one): submitting never fails for want of a
    setting; an error is never shown under a setting that is not blank, so
    that no error is on screen when the settings are all filled; and all the
    data handed to [onSubmit] has its three settings filled. *)
Theorem form_errors_justified (evs : list Event) (st : FormState) :
  errorsJustified st = true ->
  exists st' calls,
    runEvents st evs = Return (st', calls)
    /\ errorsJustified st' = true
    /\ forallb settingsFilled calls = true
    /\ (if settingsFilled (formData st') then formErrors st' = noErrors
        else True).
Proof.
  revert st. induction evs as [|ev evs IH]; intros st H.
  - exists st, []. split; [reflexivity|]. split; [exact H|].
    split; [reflexivity|].
    destruct (settingsFilled (formData st)) eqn:Es; [|exact I].
    apply errorsJustified_iff in H. destruct H as (H1 & H2 & H3).
    unfold settingsFilled, blank in Es.
    rewrite !andb_true_iff, !negb_true_iff in Es.
    destruct Es as [[Em Eu] Ek].
    destruct (formErrors st) as [em eu ek].
    cbn [errModelName errApiBaseUrl errApiKey] in H1, H2, H3.
    destruct (modelName (formData st)) as [m|]; [|discriminate].
    destruct (apiBaseUrl (formData st)) as [u|]; [|discriminate].
    destruct (apiKey (formData st)) as [k|]; [|discriminate].
    cbn [shownIfBlank] in H1, H2, H3.
    destruct em; [congruence|]. destruct eu; [congruence|].
    destruct ek; [congruence|]. reflexivity.
  - destruct (step_justified st ev H) as (st1 & c1 & E1 & J1 & F1).
    destruct (IH st1 J1) as (st2 & c2 & E2 & J2 & F2 & N2).
    exists st2, (c1 ++ c2). cbn [runEvents]. rewrite E1, E2.
    split; [reflexivity|]. split; [exact J2|]. split; [|exact N2].
    rewrite forallb_app, F1, F2. reflexivity.
Qed.

Lemma form_errors_justified_witness :
  exists st' calls,
    runEvents initialState
      [ Change In_apiKey (js " "); Submit;
        Change In_yearPillar (js "甲子"); Change In_apiKey (js "sk-test");
        PickGender FEMALE; Submit ]
    = Return (st', calls)
    /\ formErrors st' = noErrors
    /\ List.length calls = 1%nat
    /\ forallb settingsFilled calls = true.
Proof.
  destruct (form_errors_justified
              [ Change In_apiKey (js " "); Submit;
                Change In_yearPillar (js "甲子");
                Change In_apiKey (js "sk-test");
                PickGender FEMALE; Submit ] initialState eq_refl)
    as (st' & calls & E & _ & F & N).
  exists st', calls. split; [exact E|].
  vm_compute in E. injection E as <- <-.
  split; [reflexivity|]. split; [reflexivity|]. exact F.
Defined.

(** * The direction, the stem and the gender *)

Lemma firstChar_shape (p : jsstring) :
  firstChar p = []
  \/ exists c, firstChar p = [c] /\ isWhiteSpace c = false.
Proof.
  unfold firstChar, trim. pose proof (trimStart_visible p) as H.
  destruct (trimStart p) as [|c r]; [left; reflexivity|].
  right. exists c. rewrite trimEnd_cons by exact H. split; [reflexivity|exact H].
Qed.

(** X20. The direction depends on the year pillar through its first visible
    character only, the branch and whatever follows being of no
    consequence; and for one and the same year pillar a male and a female
    subject always run in opposite directions. *)
Theorem direction_stem_and_gender (pillar : jsstring) (g : Gender) :
  resolveDirection pillar g = resolveDirection (firstChar pillar) g
  /\ resolveDirection pillar FEMALE = opposite (resolveDirection pillar MALE).
Proof.
  split.
  - apply resolveDirection_polarity.
    destruct (firstChar_shape pillar) as [E | (c & E & Hc)].
    + rewrite E. apply getStemPolarity_YANG. rewrite E.
      intros H. repeat (destruct H as [H | H]; [discriminate H|]).
      contradiction.
    + assert (F : firstChar (firstChar pillar) = firstChar pillar).
      { rewrite E. unfold firstChar. rewrite trim_cons by exact Hc.
        reflexivity. }
      destruct (getStemPolarity pillar) eqn:P.
      * symmetry. apply getStemPolarity_YANG. rewrite F.
        apply getStemPolarity_YANG. exact P.
      * symmetry. apply getStemPolarity_YIN. rewrite F.
        apply getStemPolarity_YIN. exact P.
  - unfold resolveDirection, isForward.
    destruct (getStemPolarity pillar); reflexivity.
Qed.
